(** * Lending-market rate model of [main.py]

    A shallow embedding of the script: the reshape of the fetched markets
    table, the policy [p_rates], the four state update functions, the
    configuration handed to the simulation engine, and the dashboard loop
    that feeds the live chart.

    Python values are modelled as they are at run time: floats are IEEE
    binary64 ([PrimFloat.float]), dictionaries are finite maps ([gmap]),
    exceptions are an error monad.  The simulation engine, the HTTP client,
    the JSON decoder, the data-frame library and the widget library are
    external to the script; their calls are modelled by their contract and
    each such definition says so. *)

From Stdlib Require Import ZArith.
From Corelib Require Import PrimFloat.
From Stdlib Require Import Floats.
From stdpp Require Import base option list list_numbers strings gmap fin_maps.

Local Open Scope Z_scope.

(** ** Python values, exceptions *)

(** The values that the state variables of the model hold at run time. *)
Inductive pyval : Type :=
  | PyInt (z : Z)
  | PyFloat (f : float)
  | PyStr (s : string).

Inductive exception : Type :=
  | ConnectionError
  | JSONDecodeError
  | KeyError
  | AttributeError
  | ValueError
  | IndexError
  | ZeroDivisionError
  | StreamlitAPIException.

Global Instance exception_eq_dec : EqDecision exception.
Proof. solve_decision. Defined.

(** A computation either returns or raises. *)
Inductive result (A : Type) : Type :=
  | Ok (a : A)
  | Raise (e : exception).
Global Arguments Ok {A} a.
Global Arguments Raise {A} e.

Global Instance result_ret : MRet result := λ A a, Ok a.
Global Instance result_bind : MBind result := λ A B f m,
  match m with
  | Ok a => f a
  | Raise e => Raise e
  end.

(** [try: body except exc: handler] *)
Definition try_except {A} (body : result A) (exc : exception)
    (handler : result A) : result A :=
  match body with
  | Ok a => Ok a
  | Raise e => if decide (e = exc) then handler else Raise e
  end.

(** [d[k]] on a dictionary: [KeyError] when the key is absent. *)
Definition getitem `{Lookup K A M} (d : M) (k : K) : result A :=
  match d !! k with
  | Some a => Ok a
  | None => Raise KeyError
  end.

(** [a / b] on Python floats: [ZeroDivisionError] when [b == 0.0] (either
    sign of zero), the IEEE quotient otherwise. *)
Definition truediv (a b : float) : result float :=
  if (b =? 0)%float then Raise ZeroDivisionError else Ok (a / b)%float.

(** A Python int as a float specification (mantissa and exponent 0). *)
Definition Z2SF (z : Z) : spec_float :=
  match z with
  | Z0 => S754_zero false
  | Zpos p => S754_finite false p 0
  | Zneg p => S754_finite true p 0
  end.

(** [a / b] on Python ints: [ZeroDivisionError] when [b == 0], the
    correctly rounded quotient otherwise (the quotients of the script are
    at most 1, so the overflow of a too large quotient is left out). *)
Definition int_truediv (a b : Z) : result float :=
  if decide (b = 0) then Raise ZeroDivisionError
  else Ok (SF2Prim (SFdiv prec emax (Z2SF a) (Z2SF b))).

(** ** The table of markets *)

(** One element of [graph_data['markets']]: the five fields that
    [GRAPH_QUERY] asks for, as the endpoint serialises them (strings). *)
Module Market.
Record t : Type := {
  borrowRate : string;
  supplyRate : string;
  totalBorrows : string;
  totalSupply : string;
  exchangeRate : string
}.
End Market.

(** One row of [df] after the reshape, as [df.to_dict(orient='index')]
    stores it: the column added by [reset_index] and the five numeric
    columns (float64). *)
Record Row : Type := {
  index : Z;
  borrowRate : float;
  supplyRate : float;
  totalBorrows : float;
  totalSupply : float;
  exchangeRate : float
}.

(** The data-frame library is a dependency of the script; [pd] models the
    calls the script makes by their contract.  The parser of numeric
    strings is a parameter. *)
Module pd.

(** [raw_df.c] for [raw_df = pd.DataFrame(markets)]: the column [c] of the
    frame.  A frame built from an empty list has no columns, and the
    attribute access fails. *)
Definition getattr (markets : list Market.t) (c : Market.t → string)
    : result (list string) :=
  match markets with
  | [] => Raise AttributeError
  | _ :: _ => Ok (c <$> markets)
  end.

(** The conversion of one cell by [pd.to_numeric]: an empty string is a
    missing value and becomes NaN, without an error; every other string
    goes to the parser of numbers. *)
Definition convert (parse_float : string → option float) (s : string)
    : option float :=
  if decide (s = "") then Some nan else parse_float s.

(** [pd.to_numeric] on a column of strings, with the default
    [errors='raise']: the first cell that cannot be converted raises. *)
Definition to_numeric (parse_float : string → option float)
    (col : list string) : result (list float) :=
  mapM (λ s, match convert parse_float s with
             | Some f => Ok f
             | None => Raise ValueError
             end) col.

(** [pd.to_numeric] on a scalar that is a number already returns it. *)
Definition to_numeric_scalar (x : float) : float := x.

(** The rows of the frame made of the five converted columns, after
    [reset_index()] has added the positions [i, i + 1, ...] as a column. *)
Fixpoint reset_index (i : Z) (br sr tb ts er : list float) : list Row :=
  match br, sr, tb, ts, er with
  | b :: br, s :: sr, t :: tb, u :: ts, e :: er =>
      {| index := i; borrowRate := b; supplyRate := s; totalBorrows := t;
         totalSupply := u; exchangeRate := e |}
      :: reset_index (i + 1) br sr tb ts er
  | _, _, _, _, _ => []
  end.

(** [df.to_dict(orient='index')]: the rows keyed by their position. *)
Definition to_dict (df : list Row) : gmap Z Row := map_seqZ 0 df.

End pd.

(** [df]: the five [assign] calls convert one column each, in the order of
    the script, and [reset_index] closes the chain. *)
Definition reshape (parse_float : string → option float)
    (markets : list Market.t) : result (list Row) :=
  totalBorrows ← pd.getattr markets Market.totalBorrows
                 ≫= pd.to_numeric parse_float;
  totalSupply ← pd.getattr markets Market.totalSupply
                ≫= pd.to_numeric parse_float;
  borrowRate ← pd.getattr markets Market.borrowRate
               ≫= pd.to_numeric parse_float;
  supplyRate ← pd.getattr markets Market.supplyRate
               ≫= pd.to_numeric parse_float;
  exchangeRate ← pd.getattr markets Market.exchangeRate
                 ≫= pd.to_numeric parse_float;
  Ok (pd.reset_index 0 borrowRate supplyRate totalBorrows totalSupply
                     exchangeRate).

(** The state of the simulation, a dictionary from variable names to
    values; the engine keeps its own keys (['timestep'], ['substep'],
    ['run']) in the same dictionary. *)
Abbreviation State := (gmap string pyval).

(** The parameter dictionary a policy receives: the engine hands over one
    value for each key of [system_params]. *)
Record Params : Type := {
  new_df : gmap Z Row;
  exchange_rate : string
}.

(** [d[t]] where the key is a run-time value: an [int] indexes the
    dictionary of rows; no other value is a key of it. *)
Definition getitem_row (d : gmap Z Row) (t : pyval) : result Row :=
  match t with
  | PyInt z => getitem d z
  | _ => Raise KeyError
  end.

(** ** Policy function *)

Definition p_rates (params : Params) (substep : Z)
    (state_history : list (list State)) (previous_state : State)
    : result State :=
  t ← getitem previous_state "timestep";
  ts_data ← getitem_row (new_df params) t;
  let lender_APY := PyFloat (supplyRate ts_data) in
  let borrower_rate := PyFloat (borrowRate ts_data) in
  let exchange_rate := PyStr (exchange_rate params) in
  let total_borrowed := totalBorrows ts_data in
  let TVL := totalSupply ts_data in
  utilization_rate ←
    try_except
      (q ← truediv (pd.to_numeric_scalar total_borrowed)
                   (pd.to_numeric_scalar TVL);
       Ok (PyFloat (q * 100)%float))
      ZeroDivisionError
      (Ok (PyInt 0));
  Ok (<["lender_APY" := lender_APY]>
      (<["borrower_rate" := borrower_rate]>
      (<["exchange_rate" := exchange_rate]>
      (<["utilization_rate" := utilization_rate]> ∅)))).

(** The row that [p_rates] binds to [ts_data]: its first two statements. *)
Definition ts_data (params : Params) (previous_state : State) : result Row :=
  t ← getitem previous_state "timestep";
  getitem_row (new_df params) t.

(** ** State update functions *)

Definition s_lender_APY (params : Params) (substep : Z)
    (state_history : list (list State)) (previous_state : State)
    (policy_input : State) : result (string * pyval) :=
  value ← getitem policy_input "lender_APY";
  Ok ("lender_APY", value).

Definition s_borrower_APY (params : Params) (substep : Z)
    (state_history : list (list State)) (previous_state : State)
    (policy_input : State) : result (string * pyval) :=
  value ← getitem policy_input "borrower_rate";
  Ok ("borrower_rate", value).

Definition s_utilization_rate (params : Params) (substep : Z)
    (state_history : list (list State)) (previous_state : State)
    (policy_input : State) : result (string * pyval) :=
  value ← getitem policy_input "utilization_rate";
  Ok ("utilization_rate", value).

Definition s_exchange_rate (params : Params) (substep : Z)
    (state_history : list (list State)) (previous_state : State)
    (policy_input : State) : result (string * pyval) :=
  value ← getitem policy_input "exchange_rate";
  Ok ("exchange_rate", value).

(** ** The simulation engine

    The engine is a dependency of the script.  [cadCAD] models the part of
    its contract that the script relies on: one run per parameter set and
    Monte Carlo run; in a run, one pass over the partial state update
    blocks for every element of [T]; in a block, the policy is evaluated
    on the previous state, every state update function is evaluated on the
    previous state and the policy's result, and the pairs they return are
    written over a copy of the previous state, which is appended to the
    result with its timestep.  Of the engine's bookkeeping keys the model
    keeps ['run'], ['substep'] and ['timestep']. *)
Module cadCAD.

Definition PolicyFn : Type :=
  Params → Z → list (list State) → State → result State.
Definition StateUpdateFn : Type :=
  Params → Z → list (list State) → State → State → result (string * pyval).

(** A partial state update block.  The blocks of the script have one
    policy each, so the engine's aggregation over the policies of a block
    is the identity and is left out. *)
Record Block : Type := {
  policies : string * PolicyFn;
  variables : list (string * StateUpdateFn)
}.

(** The values of [system_params]: a list of candidate values per key. *)
Record SystemParams : Type := {
  M_new_df : list (gmap Z Row);
  M_exchange_rate : list string
}.

Record Config : Type := {
  T : list Z;
  N : nat;
  M : SystemParams;
  initial_state : State;
  partial_state_update_blocks : list Block
}.

(** The parameter sets of a sweep: the lists are read in parallel. *)
Definition param_sets (m : SystemParams) : list Params :=
  zip_with Build_Params (M_new_df m) (M_exchange_rate m).

Definition partial_state_update (params : Params) (sub_step : Z)
    (sH : list (list State)) (last_in_obj : State) (block : Block)
    (time_step run : Z) : result State :=
  _input ← (policies block).2 params sub_step sH last_in_obj;
  updates ← mapM (λ f : string * StateUpdateFn,
                    f.2 params sub_step sH last_in_obj _input)
                 (variables block);
  let last_in_copy :=
    foldl (λ (d : State) (kv : string * pyval), <[kv.1 := kv.2]> d)
          last_in_obj updates in
  Ok (<["run" := PyInt run]>
      (<["timestep" := PyInt time_step]>
      (<["substep" := PyInt sub_step]> last_in_copy))).

Fixpoint state_update_pipeline (params : Params) (sH : list (list State))
    (blocks : list Block) (sub_step time_step run : Z) (s : State)
    : result (list State) :=
  match blocks with
  | [] => Ok []
  | b :: bs =>
      s' ← partial_state_update params sub_step sH s b time_step run;
      rest ← state_update_pipeline params sH bs (sub_step + 1) time_step run s';
      Ok (s' :: rest)
  end.

Fixpoint run_pipeline (params : Params) (blocks : list Block)
    (time_seq : list Z) (run : Z) (sH : list (list State)) (s : State)
    : result (list (list State)) :=
  match time_seq with
  | [] => Ok sH
  | time_step :: rest =>
      pipe_run ← state_update_pipeline params sH blocks 1 time_step run s;
      run_pipeline params blocks rest run (sH ++ [pipe_run])
                   (default s (last pipe_run))
  end.

Definition genesis (cfg : Config) (run : Z) : State :=
  <["run" := PyInt run]>
  (<["timestep" := PyInt 0]>
  (<["substep" := PyInt 0]> (initial_state cfg))).

Definition simulation (cfg : Config) (params : Params) (run : Z)
    : result (list State) :=
  sH ← run_pipeline params (partial_state_update_blocks cfg)
                    ((λ x, x + 1) <$> T cfg) run
                    [[genesis cfg run]] (genesis cfg run);
  Ok (concat sH).

Definition execute (cfg : Config) : result (list State) :=
  per_set ← mapM (λ params,
                per_run ← mapM (simulation cfg params)
                               (seqZ 1 (Z.of_nat (N cfg)));
                Ok (concat per_run))
              (param_sets (M cfg));
  Ok (concat per_set).

(** [exp.append_configs]: the configuration is read from keyword
    parameters ([sim_configs], [initial_state],
    [partial_state_update_blocks], ...), each with an empty default; the
    first positional parameter is [user_id].  With [sim_configs] left at
    its default the lookup of ['N'] in it raises [KeyError]. *)
Definition append_configs {U : Type} (user_id : U)
    (sim_configs : option Config) : result Config :=
  match sim_configs with
  | Some cfg => Ok cfg
  | None => Raise KeyError
  end.

End cadCAD.

(** ** Configuration of the model *)

Definition initial_state : State :=
  <["lender_APY" := PyFloat 0]>
  (<["borrower_rate" := PyFloat 0]>
  (<["utilization_rate" := PyFloat 0]>
  (<["exchange_rate" := PyFloat 0]> ∅))).

Definition system_params (df_dict : gmap Z Row) : cadCAD.SystemParams := {|
  cadCAD.M_new_df := [df_dict];
  cadCAD.M_exchange_rate := ["exchangeRate"]
|}.

Definition partial_state_update_blocks : list cadCAD.Block := [
  {| cadCAD.policies := ("policy_rates", p_rates);
     cadCAD.variables := [
       ("s_lender_APY", s_lender_APY);
       ("s_borrower_APY", s_borrower_APY);
       ("s_utilization_rate", s_utilization_rate);
       ("s_exchange_rate", s_exchange_rate) ] |} ].

Definition config (df_dict : gmap Z Row) : cadCAD.Config := {|
  cadCAD.T := seqZ 0 (Z.of_nat (size df_dict));
  cadCAD.N := 1;
  cadCAD.M := system_params df_dict;
  cadCAD.initial_state := initial_state;
  cadCAD.partial_state_update_blocks := partial_state_update_blocks
|}.

(** [raw_result]: what [simulation.execute()] returns for the
    configuration [config] of the reshaped table [df], once the engine
    has it. *)
Definition raw_result (df : list Row) : result (list State) :=
  cadCAD.execute (config (pd.to_dict df)).

(** ** The script up to the simulation result *)

(** The decoded response body.  The script reads
    [json.loads(r.content)['data']] and then [graph_data['markets']]; the
    two dictionaries are kept as dictionaries, so a missing key is a
    [KeyError], and the list of markets has the shape the query fixes. *)
Abbreviation Json := (gmap string (gmap string (list Market.t))).

(** What one execution of the script receives from outside: the outcome of
    the HTTP request (the body [r.content], or the exception the client
    raises), the JSON decoder, the parser behind [pd.to_numeric], and the
    two sidebar buttons. *)
Record World : Type := {
  post : result string;
  json_loads : string → result Json;
  parse_float : string → option float;
  run_simulation : bool;
  re_run : bool
}.

Definition graph_data (w : World) : result (gmap string (list Market.t)) :=
  r ← post w;
  j ← json_loads w r;
  getitem j "data".

Definition markets (w : World) : result (list Market.t) :=
  graph_data ← graph_data w;
  getitem graph_data "markets".

Definition df (w : World) : result (list Row) :=
  markets ← markets w;
  reshape (parse_float w) markets.

(** ** Chart and dashboard

    Calls into the plotting and widget libraries and [time.sleep] are
    recorded as events, in program order, when they return; the calls
    that check their argument ([px.line], [progress_bar.progress]) are
    modelled with the check. *)
Inductive event : Type :=
  | fig_show (table : list State)
  | st_title (s : string)
  | st_sidebar_button (label : string)
  | st_progress (value : Z)
  | st_empty
  | status_text_text (value : float)
  | progress_bar_progress (value : float)
  | time_sleep (secs : float)
  | progress_bar_empty
  | st_subheader (s : string)
  | st_write (table : list State)
  | st_line_chart
  | chart_add_rows (row : State)
  | st_experimental_rerun.

(** A computation of the dashboard: the events it has emitted, and its
    outcome. *)
Definition UI (A : Type) : Type := list event * result A.

Global Instance UI_ret : MRet UI := λ A a, ([], Ok a).
Global Instance UI_bind : MBind UI := λ A B f m,
  match m with
  | (tr, Ok a) => let '(tr', r) := f a in (tr ++ tr', r)
  | (tr, Raise e) => (tr, Raise e)
  end.

Definition emit (e : event) : UI () := ([e], Ok ()).
Definition lift {A} (r : result A) : UI A := ([], r).

(** [for x in xs: body] *)
Fixpoint for_ {A} (xs : list A) (body : A → UI ()) : UI () :=
  match xs with
  | [] => mret ()
  | x :: xs => body x ;; for_ xs body
  end.

(** [result.iloc[i, :]] *)
Definition iloc (table : list State) (i : nat) : result State :=
  match table !! i with
  | Some row => Ok row
  | None => Raise IndexError
  end.

(** The pause of both loops, the Python literal [0.05] as a binary64. *)
Definition pause : float := 0x1.999999999999ap-5%float.

(** A value of a cell of the result table that is a number (a missing
    value is NaN in the frame). *)
Definition is_number (v : option pyval) : bool :=
  match v with
  | Some (PyStr _) => false
  | _ => true
  end.

(** [px.line(result, x='timestep', y=[...])] with four columns as [y]:
    wide-form data needs columns of one type, so a table in which some of
    the four columns hold numbers only and others do not raises
    [ValueError]. *)
Definition px_line (table : list State) : result () :=
  let numeric_column key :=
    forallb (λ s : State, is_number (s !! key)) table in
  let kinds := numeric_column <$>
    ["lender_APY"; "borrower_rate"; "utilization_rate"; "exchange_rate"] in
  if forallb id kinds || forallb negb kinds then Ok ()
  else Raise ValueError.

Module st.
(** [progress_bar.progress(value)] for a float [value]: the widget takes
    a fraction, and a float outside [0.0, 1.0] raises. *)
Definition progress_value (value : float) : result () :=
  if (0 <=? value)%float && (value <=? 1)%float then Ok ()
  else Raise StreamlitAPIException.
End st.

(** [(i + 1) / len(result) * 100], for [num = i + 1] and
    [den = len(result)]. *)
Definition percent (num den : Z) : result float :=
  q ← int_truediv num den;
  Ok (q * 100)%float.

(** [if run_simulation:] with the progress bar and the table of results;
    [execute] is the call [simulation.execute()] of this block, [result]
    the table of the first execution, which stays bound when the button
    is not pressed. *)
Definition results_section (w : World) (execute : result (list State))
    (result : list State) : UI (list State) :=
  if run_simulation w then
    emit (st_progress 0);;
    emit st_empty;;
    result ← lift execute;
    for_ (seq 0 (length result)) (λ i,
      value ← lift (percent (Z.of_nat i + 1) (Z.of_nat (length result)));
      emit (status_text_text value);;
      value ← lift (percent (Z.of_nat i + 1) (Z.of_nat (length result)));
      lift (st.progress_value value);;
      emit (progress_bar_progress value);;
      emit (time_sleep pause));;
    emit progress_bar_empty;;
    emit (st_subheader "Simulation Results");;
    emit (st_write result);;
    mret result
  else mret result.

(** The chart section: the live chart and the loop that feeds it. *)
Definition chart_section (w : World) (result : list State) : UI () :=
  emit (st_subheader "Simulation Chart");;
  emit st_line_chart;;
  if run_simulation w then
    for_ (seq 0 (length result)) (λ i,
      new_rows ← lift (iloc result i);
      emit (chart_add_rows new_rows);;
      emit (time_sleep pause))
  else mret ().

(** The part of the script after the first execution of the simulation. *)
Definition dashboard (w : World) (execute : result (list State))
    (result : list State) : UI () :=
  emit (st_title "cadCAD Simulation with Streamlit");;
  emit (st_sidebar_button "Run Simulation");;
  emit (st_sidebar_button "Re-run");;
  result ← results_section w execute result;
  chart_section w result;;
  if re_run w then emit st_experimental_rerun else mret ().

(** The whole script.  [exp.append_configs(config)] hands the dictionary
    over as the first positional argument, so it is bound to [user_id] and
    [sim_configs] keeps its default. *)
Definition script (w : World) : UI () :=
  df ← lift (df w);
  configs ← lift (cadCAD.append_configs (config (pd.to_dict df)) None);
  result ← lift (cadCAD.execute configs);
  lift (px_line result);;
  emit (fig_show result);;
  dashboard w (cadCAD.execute configs) result.

(** ** Sample data *)

Definition row0 : Row :=
  {| index := 0; borrowRate := 0.5; supplyRate := 0.25;
     totalBorrows := 1; totalSupply := 4; exchangeRate := 0.125 |}.
(** A market nobody has supplied to. *)
Definition row1 : Row :=
  {| index := 1; borrowRate := 0.75; supplyRate := 0.375;
     totalBorrows := 3; totalSupply := 0; exchangeRate := 2 |}.

(** A parser for the samples: it knows a few literals. *)
Definition sample_parse (s : string) : option float :=
  if String.eqb s "0" then Some 0%float
  else if String.eqb s "1" then Some 1%float
  else if String.eqb s "2" then Some 2%float
  else if String.eqb s "3" then Some 3%float
  else if String.eqb s "4" then Some 4%float
  else if String.eqb s "0.5" then Some 0.5%float
  else if String.eqb s "0.25" then Some 0.25%float
  else if String.eqb s "0.75" then Some 0.75%float
  else if String.eqb s "0.375" then Some 0.375%float
  else if String.eqb s "0.125" then Some 0.125%float
  else None.

(** The markets that the reshape turns into [row0] and [row1]. *)
Definition market0 : Market.t :=
  {| Market.borrowRate := "0.5"; Market.supplyRate := "0.25";
     Market.totalBorrows := "1"; Market.totalSupply := "4";
     Market.exchangeRate := "0.125" |}.
Definition market1 : Market.t :=
  {| Market.borrowRate := "0.75"; Market.supplyRate := "0.375";
     Market.totalBorrows := "3"; Market.totalSupply := "0";
     Market.exchangeRate := "2" |}.
(** A market with an empty field. *)
Definition market_blank : Market.t :=
  {| Market.borrowRate := "0.5"; Market.supplyRate := "";
     Market.totalBorrows := "1"; Market.totalSupply := "4";
     Market.exchangeRate := "0.125" |}.
(** A market with a field that is not a number. *)
Definition market_bad : Market.t :=
  {| Market.borrowRate := "0.5"; Market.supplyRate := "n/a";
     Market.totalBorrows := "1"; Market.totalSupply := "4";
     Market.exchangeRate := "0.125" |}.

(** A decoder for the samples: one well-formed body whose markets are
    [ms], one body without ['data'], and anything else is not JSON. *)
Definition sample_loads (ms : list Market.t) (body : string) : result Json :=
  if String.eqb body "{data}" then Ok {[ "data" := {[ "markets" := ms ]} ]}
  else if String.eqb body "{errors}" then Ok ∅
  else Raise JSONDecodeError.

Definition sample_world (post : result string) (ms : list Market.t)
    (run_simulation re_run : bool) : World :=
  {| post := post; json_loads := sample_loads ms;
     parse_float := sample_parse;
     run_simulation := run_simulation; re_run := re_run |}.

(** A market whose [totalSupply] is not a number, and a market nobody
    has borrowed from. *)
Definition row_nan : Row :=
  {| index := 0; borrowRate := 0.5; supplyRate := 0.25;
     totalBorrows := 1; totalSupply := nan; exchangeRate := 0.125 |}.
Definition row_idle : Row :=
  {| index := 0; borrowRate := 0.5; supplyRate := 0.25;
     totalBorrows := 0; totalSupply := 4; exchangeRate := 0.125 |}.

(** ** Reference values for the statements *)

(** The column [key] of a result table. *)
Definition column (key : string) (table : list State) : list (option pyval) :=
  (λ s : State, s !! key) <$> table.

(** The utilization the policy stores for a row. *)
Definition utilization_of (row : Row) : pyval :=
  if (totalSupply row =? 0)%float then PyInt 0
  else PyFloat (totalBorrows row / totalSupply row * 100)%float.

(** The dictionary the policy returns when it has read [row]. *)
Definition policy_of (params : Params) (row : Row) : State :=
  <["lender_APY" := PyFloat (supplyRate row)]>
  (<["borrower_rate" := PyFloat (borrowRate row)]>
  (<["exchange_rate" := PyStr (exchange_rate params)]>
  (<["utilization_rate" := utilization_of row]> ∅))).

(** The record the block appends when the policy has read [row] in the
    state [s]. *)
Definition updated (params : Params) (row : Row) (time_step run : Z)
    (s : State) : State :=
  <["run" := PyInt run]>
  (<["timestep" := PyInt time_step]>
  (<["substep" := PyInt 1]>
  (<["exchange_rate" := PyStr (exchange_rate params)]>
  (<["utilization_rate" := utilization_of row]>
  (<["borrower_rate" := PyFloat (borrowRate row)]>
  (<["lender_APY" := PyFloat (supplyRate row)]> s)))))).

(** The records a run appends for [rows], started in state [s] at
    timestep [k]. *)
Fixpoint trajectory (params : Params) (run k : Z) (s : State)
    (rows : list Row) : list State :=
  match rows with
  | [] => []
  | row :: rows =>
      let s' := updated params row (k + 1) run s in
      s' :: trajectory params run (k + 1) s' rows
  end.

(** The parameter set of the script's configuration (its only one) and
    the first record of its run. *)
Definition the_params (df : list Row) : Params :=
  {| new_df := pd.to_dict df; exchange_rate := "exchangeRate" |}.
Definition the_genesis : State :=
  <["run" := PyInt 1]>
  (<["timestep" := PyInt 0]>
  (<["substep" := PyInt 0]> initial_state)).

(** A market whose five fields [pd.to_numeric] converts: each of them is
    a numeric string, or empty. *)
Definition numeric (parse_float : string → option float) (m : Market.t)
    : Prop :=
  is_Some (pd.convert parse_float (Market.totalBorrows m)) ∧
  is_Some (pd.convert parse_float (Market.totalSupply m)) ∧
  is_Some (pd.convert parse_float (Market.borrowRate m)) ∧
  is_Some (pd.convert parse_float (Market.supplyRate m)) ∧
  is_Some (pd.convert parse_float (Market.exchangeRate m)).

(** Row [r] holds the converted values of the five fields of market [m]:
    the parsed number, or NaN for an empty field. *)
Definition converted (parse_float : string → option float) (m : Market.t)
    (r : Row) : Prop :=
  pd.convert parse_float (Market.totalBorrows m) = Some (totalBorrows r) ∧
  pd.convert parse_float (Market.totalSupply m) = Some (totalSupply r) ∧
  pd.convert parse_float (Market.borrowRate m) = Some (borrowRate r) ∧
  pd.convert parse_float (Market.supplyRate m) = Some (supplyRate r) ∧
  pd.convert parse_float (Market.exchangeRate m) = Some (exchangeRate r).

(** The rows that a trace appends to the live chart, in order. *)
Definition rows_added (tr : list event) : list State :=
  omap (λ e, match e with chart_add_rows row => Some row | _ => None end) tr.

(** The events of the chart loop over [table]: per row, the append and
    the pause after it. *)
Definition chart_loop (table : list State) : list event :=
  concat ((λ row, [chart_add_rows row; time_sleep pause]) <$> table).

(** Two rows with the same values in the four columns the policy reads. *)
Definition same_rates (r1 r2 : Row) : Prop :=
  supplyRate r1 = supplyRate r2 ∧
  borrowRate r1 = borrowRate r2 ∧
  totalBorrows r1 = totalBorrows r2 ∧
  totalSupply r1 = totalSupply r2.

(** The keys of the dictionary the policy returns, and the columns of the
    result that the line plot reads. *)
Definition policy_keys : gset string :=
  {[ "lender_APY"; "borrower_rate"; "exchange_rate"; "utilization_rate" ]}.
Definition plotted_keys : gset string :=
  {[ "timestep" ]} ∪ policy_keys.

(** The pauses of a trace, the updates of the progress bar, and the number
    of calls of [st.experimental_rerun]. *)
Definition sleeps (tr : list event) : list float :=
  omap (λ e, match e with time_sleep secs => Some secs | _ => None end) tr.
Definition progress_updates (tr : list event) : list float :=
  omap (λ e, match e with
             | progress_bar_progress value => Some value
             | _ => None
             end) tr.
Definition reruns (tr : list event) : nat :=
  length (omap (λ e, match e with
                     | st_experimental_rerun => Some ()
                     | _ => None
                     end) tr).

(** * Properties *)

(** ** The policy and the state update functions *)

Lemma bind_Ok {A B} (f : A → result B) (a : A) : (Ok a ≫= f) = f a.
Proof. reflexivity. Qed.

Lemma bind_Raise {A B} (f : A → result B) (e : exception) :
  (Raise e ≫= f) = Raise e.
Proof. reflexivity. Qed.

Lemma getitem_Some `{Lookup K A M} (d : M) (k : K) (a : A) :
  d !! k = Some a → getitem d k = Ok a.
Proof. unfold getitem. by intros ->. Qed.

Lemma getitem_None `{Lookup K A M} (d : M) (k : K) :
  d !! k = None → getitem d k = Raise KeyError.
Proof. unfold getitem. by intros ->. Qed.

Lemma p_rates_row params substep sH (s : State) t row :
  s !! "timestep" = Some (PyInt t) →
  new_df params !! t = Some row →
  p_rates params substep sH s = Ok (policy_of params row).
Proof.
  intros Ht Hrow. unfold p_rates.
  rewrite (getitem_Some _ _ _ Ht), bind_Ok. simpl getitem_row.
  rewrite (getitem_Some _ _ _ Hrow), bind_Ok.
  unfold policy_of, utilization_of, truediv, pd.to_numeric_scalar.
  by destruct (totalSupply row =? 0)%float.
Qed.

Lemma partial_state_update_row params sH (s : State) t row time_step run :
  s !! "timestep" = Some (PyInt t) →
  new_df params !! t = Some row →
  cadCAD.partial_state_update params 1 sH s
    {| cadCAD.policies := ("policy_rates", p_rates);
       cadCAD.variables := [
         ("s_lender_APY", s_lender_APY);
         ("s_borrower_APY", s_borrower_APY);
         ("s_utilization_rate", s_utilization_rate);
         ("s_exchange_rate", s_exchange_rate) ] |} time_step run
  = Ok (updated params row time_step run s).
Proof.
  intros Ht Hrow. unfold cadCAD.partial_state_update. simpl cadCAD.policies.
  simpl snd. rewrite (p_rates_row _ _ _ _ _ _ Ht Hrow), bind_Ok.
  reflexivity.
Qed.

(** ** The run of the engine on the configuration of the script *)

Lemma state_update_pipeline_row params sH (s : State) t row time_step run :
  s !! "timestep" = Some (PyInt t) →
  new_df params !! t = Some row →
  cadCAD.state_update_pipeline params sH partial_state_update_blocks
    1 time_step run s
  = Ok [updated params row time_step run s].
Proof.
  intros Ht Hrow. unfold partial_state_update_blocks.
  simpl cadCAD.state_update_pipeline.
  by rewrite (partial_state_update_row _ _ _ _ _ _ _ Ht Hrow).
Qed.

Lemma updated_timestep params row time_step run (s : State) :
  updated params row time_step run s !! "timestep" = Some (PyInt time_step).
Proof.
  unfold updated. rewrite lookup_insert_ne by done. apply lookup_insert_eq.
Qed.

Lemma run_pipeline_cons params blocks time_step rest run sH (s : State) :
  cadCAD.run_pipeline params blocks (time_step :: rest) run sH s
  = (pipe_run ← cadCAD.state_update_pipeline params sH blocks 1 time_step run s;
     cadCAD.run_pipeline params blocks rest run (sH ++ [pipe_run])
                         (default s (last pipe_run))).
Proof. reflexivity. Qed.

Lemma run_pipeline_rows params run rows : ∀ k sH (s : State),
  s !! "timestep" = Some (PyInt k) →
  (∀ i row, rows !! i = Some row →
            new_df params !! (k + Z.of_nat i) = Some row) →
  cadCAD.run_pipeline params partial_state_update_blocks
    ((λ x, x + 1) <$> seqZ k (Z.of_nat (length rows))) run sH s
  = Ok (sH ++ ((λ r, [r]) <$> trajectory params run k s rows)).
Proof.
  induction rows as [|row rows IH]; intros k sH s Ht Hrows.
  - simpl. by rewrite app_nil_r.
  - rewrite seqZ_cons by (simpl; lia).
    replace (Z.pred (Z.of_nat (length (row :: rows))))
      with (Z.of_nat (length rows)) by (simpl; lia).
    rewrite fmap_cons, run_pipeline_cons.
    assert (Hrow : new_df params !! k = Some row).
    { specialize (Hrows 0%nat row eq_refl). by rewrite Z.add_0_r in Hrows. }
    rewrite (state_update_pipeline_row _ _ _ _ _ _ _ Ht Hrow), bind_Ok.
    simpl last. simpl default.
    rewrite IH.
    + simpl trajectory. rewrite fmap_cons, <- app_assoc. reflexivity.
    + apply updated_timestep.
    + intros i r Hi. specialize (Hrows (S i) r Hi).
      rewrite <- Hrows. f_equal. lia.
Qed.

Lemma concat_singletons {A} (l : list A) : concat ((λ r, [r]) <$> l) = l.
Proof. induction l as [|a l IH]; simpl; [done | f_equal; exact IH]. Qed.

Lemma size_to_dict (df : list Row) : size (pd.to_dict df) = length df.
Proof.
  unfold pd.to_dict. generalize 0. induction df as [|row df IH]; intros k.
  - apply map_size_empty.
  - simpl. rewrite map_size_insert_None by apply map_seqZ_cons_disjoint.
    by rewrite IH.
Qed.

Lemma lookup_to_dict (df : list Row) (i : nat) :
  pd.to_dict df !! Z.of_nat i = df !! i.
Proof.
  unfold pd.to_dict. rewrite lookup_map_seqZ_0 by lia. by rewrite Nat2Z.id.
Qed.

Lemma param_sets_config (df : list Row) :
  cadCAD.param_sets (cadCAD.M (config (pd.to_dict df))) = [the_params df].
Proof. reflexivity. Qed.

Lemma execute_config (df_dict : gmap Z Row) :
  cadCAD.execute (config df_dict)
  = cadCAD.simulation (config df_dict)
      {| new_df := df_dict; exchange_rate := "exchangeRate" |} 1.
Proof.
  unfold cadCAD.execute.
  change (cadCAD.param_sets (cadCAD.M (config df_dict)))
    with [ {| new_df := df_dict; exchange_rate := "exchangeRate" |} ].
  change (seqZ 1 (Z.of_nat (cadCAD.N (config df_dict)))) with [1].
  cbn [mapM].
  destruct (cadCAD.simulation _ _ _) as [res|e]; [|reflexivity].
  cbn. by rewrite !app_nil_r.
Qed.

(** The result of the script's simulation, in closed form. *)
Lemma raw_result_trajectory (df : list Row) :
  raw_result df
  = Ok (the_genesis :: trajectory (the_params df) 1 0 the_genesis df).
Proof.
  unfold raw_result. rewrite execute_config.
  unfold cadCAD.simulation.
  change (cadCAD.genesis (config (pd.to_dict df)) 1) with the_genesis.
  change (cadCAD.partial_state_update_blocks (config (pd.to_dict df)))
    with partial_state_update_blocks.
  change (cadCAD.T (config (pd.to_dict df)))
    with (seqZ 0 (Z.of_nat (size (pd.to_dict df)))).
  rewrite size_to_dict.
  change {| new_df := pd.to_dict df; exchange_rate := "exchangeRate" |}
    with (the_params df).
  rewrite (run_pipeline_rows (the_params df) 1 df 0 [[the_genesis]] the_genesis).
  - rewrite bind_Ok. cbn [app concat]. by rewrite concat_singletons.
  - reflexivity.
  - intros i row Hi. rewrite Z.add_0_l. cbn [new_df the_params].
    by rewrite lookup_to_dict.
Qed.

Example raw_result_ex :
  (table ← raw_result [row0; row1];
   Ok (column "timestep" table, column "lender_APY" table,
       column "utilization_rate" table, column "exchange_rate" table))
  = Ok ([Some (PyInt 0); Some (PyInt 1); Some (PyInt 2)],
        [Some (PyFloat 0); Some (PyFloat 0.25); Some (PyFloat 0.375)],
        [Some (PyFloat 0); Some (PyFloat 25); Some (PyInt 0)],
        [Some (PyFloat 0); Some (PyStr "exchangeRate");
         Some (PyStr "exchangeRate")]).
Proof. vm_compute. reflexivity. Qed.

(** ** Reading the records of a run *)

Ltac lookup_updated :=
  unfold updated; repeat (rewrite lookup_insert_ne by done);
  apply lookup_insert_eq.

Lemma updated_lender_APY params row time_step run (s : State) :
  updated params row time_step run s !! "lender_APY"
  = Some (PyFloat (supplyRate row)).
Proof. lookup_updated. Qed.

Lemma updated_borrower_rate params row time_step run (s : State) :
  updated params row time_step run s !! "borrower_rate"
  = Some (PyFloat (borrowRate row)).
Proof. lookup_updated. Qed.

Lemma updated_utilization_rate params row time_step run (s : State) :
  updated params row time_step run s !! "utilization_rate"
  = Some (utilization_of row).
Proof. lookup_updated. Qed.

Lemma updated_exchange_rate params row time_step run (s : State) :
  updated params row time_step run s !! "exchange_rate"
  = Some (PyStr (exchange_rate params)).
Proof. lookup_updated. Qed.


Lemma length_trajectory params run rows : ∀ k (s : State),
  length (trajectory params run k s rows) = length rows.
Proof.
  induction rows as [|row rows IH]; intros k s; simpl; [done|].
  by rewrite IH.
Qed.





(** ** Claims about the simulation *)




Lemma trajectory_exchange_rate params run rows : ∀ (s : State) k,
  Forall (λ s : State, s !! "exchange_rate" = Some (PyStr (exchange_rate params)))
         (trajectory params run k s rows).
Proof.
  induction rows as [|row rows IH]; intros s k; simpl; constructor.
  - apply updated_exchange_rate.
  - apply IH.
Qed.

(** C8.  In every record after the initial one, [exchange_rate] is the
    string ['exchangeRate'] of [system_params], whatever the table holds. *)
Theorem C8_exchange_rate_is_the_parameter_string (df : list Row) :
  ∃ (steps : list State),
    raw_result df = Ok (the_genesis :: steps) ∧
    length steps = length df ∧
    Forall (λ s : State, s !! "exchange_rate" = Some (PyStr "exchangeRate"))
           steps.
Proof.
  exists (trajectory (the_params df) 1 0 the_genesis df).
  split; [apply raw_result_trajectory|].
  split; [apply length_trajectory|].
  apply (trajectory_exchange_rate (the_params df)).
Qed.

(** The policy is a function of the row it reads. *)
Lemma p_rates_ts_data params substep sH (s : State) :
  p_rates params substep sH s
  = (row ← ts_data params s; Ok (policy_of params row)).
Proof.
  unfold p_rates, ts_data.
  destruct (getitem s "timestep") as [t|e]; [|reflexivity].
  rewrite !bind_Ok.
  destruct (getitem_row (new_df params) t) as [row|e]; [|reflexivity].
  rewrite !bind_Ok.
  unfold policy_of, utilization_of, truediv, pd.to_numeric_scalar.
  by destruct (totalSupply row =? 0)%float.
Qed.

Lemma partial_state_update_ts_data params sH (s : State) time_step run :
  cadCAD.partial_state_update params 1 sH s
    {| cadCAD.policies := ("policy_rates", p_rates);
       cadCAD.variables := [
         ("s_lender_APY", s_lender_APY);
         ("s_borrower_APY", s_borrower_APY);
         ("s_utilization_rate", s_utilization_rate);
         ("s_exchange_rate", s_exchange_rate) ] |} time_step run
  = (row ← ts_data params s; Ok (updated params row time_step run s)).
Proof.
  unfold cadCAD.partial_state_update. simpl cadCAD.policies. simpl snd.
  rewrite p_rates_ts_data.
  by destruct (ts_data params s) as [row|e].
Qed.

(** C1 at the table [[row0]]: the record of timestep 1 has copied
    [supplyRate] and [borrowRate] and holds the computed utilization, but
    its [exchange_rate] is the string ['exchangeRate'], not the value
    [0.125] of the row's [exchangeRate] column. *)
Theorem C1_exchange_rate_is_not_copied :
  ∃ (table : list State) (s : State),
    raw_result [row0] = Ok table ∧
    table !! 1%nat = Some s ∧
    s !! "timestep" = Some (PyInt 1) ∧
    s !! "lender_APY" = Some (PyFloat (supplyRate row0)) ∧
    s !! "borrower_rate" = Some (PyFloat (borrowRate row0)) ∧
    s !! "utilization_rate" = Some (PyFloat 25) ∧
    s !! "exchange_rate" = Some (PyStr "exchangeRate") ∧
    s !! "exchange_rate" ≠ Some (PyFloat (exchangeRate row0)).
Proof.
  exists [the_genesis; updated (the_params [row0]) row0 1 1 the_genesis],
         (updated (the_params [row0]) row0 1 1 the_genesis).
  split; [apply raw_result_trajectory|].
  split; [reflexivity|].
  split; [apply updated_timestep|].
  split; [apply updated_lender_APY|].
  split; [apply updated_borrower_rate|].
  split; [apply updated_utilization_rate|].
  split; [apply updated_exchange_rate|].
  by rewrite updated_exchange_rate.
Qed.

(** C2.  When the policy reads [row], the [utilization_rate] it returns is
    [0] if [totalSupply] of the row equals zero, and
    [totalBorrows / totalSupply * 100] otherwise. *)
Theorem C2_utilization_rate (params : Params) (substep : Z)
    (state_history : list (list State)) (previous_state : State)
    (t : Z) (row : Row) :
  previous_state !! "timestep" = Some (PyInt t) →
  new_df params !! t = Some row →
  ∃ policy_input : State,
    p_rates params substep state_history previous_state = Ok policy_input ∧
    policy_input !! "utilization_rate"
    = Some (if (totalSupply row =? 0)%float then PyInt 0
            else PyFloat (totalBorrows row / totalSupply row * 100)%float).
Proof.
  intros Ht Hrow. exists (policy_of params row).
  split; [by apply (p_rates_row _ _ _ _ t)|].
  reflexivity.
Qed.

Lemma C2_utilization_rate_witness :
  ∃ policy_input : State,
    p_rates (the_params [row0; row1]) 1 [] (<["timestep" := PyInt 1]> ∅)
    = Ok policy_input ∧
    policy_input !! "utilization_rate" = Some (PyInt 0).
Proof.
  apply (C2_utilization_rate (the_params [row0; row1]) 1 []
           (<["timestep" := PyInt 1]> ∅) 1 row1); reflexivity.
Defined.




(** C9.  Two previous states with the same ['timestep'] give the same
    outcome of the policy and of each state update function, and the
    records the block builds from them agree on the four rate variables
    (or both executions raise the same exception): the previous values of
    the rate variables are never read. *)
Theorem C9_update_ignores_previous_rates (params : Params) (substep : Z)
    (sH1 sH2 : list (list State)) (s1 s2 : State) :
  s1 !! "timestep" = s2 !! "timestep" →
  p_rates params substep sH1 s1 = p_rates params substep sH2 s2 ∧
  (∀ policy_input : State,
     s_lender_APY params substep sH1 s1 policy_input
     = s_lender_APY params substep sH2 s2 policy_input ∧
     s_borrower_APY params substep sH1 s1 policy_input
     = s_borrower_APY params substep sH2 s2 policy_input ∧
     s_utilization_rate params substep sH1 s1 policy_input
     = s_utilization_rate params substep sH2 s2 policy_input ∧
     s_exchange_rate params substep sH1 s1 policy_input
     = s_exchange_rate params substep sH2 s2 policy_input) ∧
  (∀ block time_step run,
     block ∈ partial_state_update_blocks →
     match cadCAD.partial_state_update params 1 sH1 s1 block time_step run,
           cadCAD.partial_state_update params 1 sH2 s2 block time_step run
     with
     | Ok s1', Ok s2' =>
         s1' !! "lender_APY" = s2' !! "lender_APY" ∧
         s1' !! "borrower_rate" = s2' !! "borrower_rate" ∧
         s1' !! "utilization_rate" = s2' !! "utilization_rate" ∧
         s1' !! "exchange_rate" = s2' !! "exchange_rate"
     | Raise e1, Raise e2 => e1 = e2
     | _, _ => False
     end).
Proof.
  intros Heq.
  assert (Hts : ts_data params s1 = ts_data params s2).
  { unfold ts_data, getitem. by rewrite Heq. }
  split; [by rewrite !p_rates_ts_data, Hts|].
  split; [done|].
  intros block time_step run Hblock.
  apply list_elem_of_singleton in Hblock as ->.
  rewrite !partial_state_update_ts_data, <- Hts.
  destruct (ts_data params s1) as [row|e]; [|reflexivity].
  rewrite !bind_Ok.
  by rewrite !updated_lender_APY, !updated_borrower_rate,
             !updated_utilization_rate, !updated_exchange_rate.
Qed.

Lemma C9_update_ignores_previous_rates_witness :
  p_rates (the_params [row0; row1]) 1 [] the_genesis
  = p_rates (the_params [row0; row1]) 1 [[the_genesis]]
      (<["lender_APY" := PyFloat 7]>
       (<["exchange_rate" := PyStr "stale"]> the_genesis)).
Proof.
  apply (C9_update_ignores_previous_rates (the_params [row0; row1]) 1
           [] [[the_genesis]] the_genesis
           (<["lender_APY" := PyFloat 7]>
            (<["exchange_rate" := PyStr "stale"]> the_genesis))).
  reflexivity.
Defined.

(** ** The reshape *)

Example reshape_ex : reshape sample_parse [market0; market1] = Ok [row0; row1].
Proof. reflexivity. Qed.

Example reshape_bad_ex :
  reshape sample_parse [market0; market_bad; market1] = Raise ValueError.
Proof. reflexivity. Qed.

Section to_numeric.
Variable parse_float : string → option float.

Lemma to_numeric_cons s col :
  pd.to_numeric parse_float (s :: col)
  = (x ← match pd.convert parse_float s with
         | Some f => Ok f
         | None => Raise ValueError
         end;
     k ← pd.to_numeric parse_float col;
     Ok (x :: k)).
Proof. reflexivity. Qed.

Lemma to_numeric_Ok col : ∀ l,
  pd.to_numeric parse_float col = Ok l ↔
  Forall2 (λ s x, pd.convert parse_float s = Some x) col l.
Proof.
  induction col as [|s col IH]; intros l.
  - split.
    + intros [= <-]. constructor.
    + intros H. by inversion H.
  - rewrite to_numeric_cons. split.
    + destruct (pd.convert parse_float s) as [x|] eqn:Hs; [|done].
      rewrite bind_Ok.
      destruct (pd.to_numeric parse_float col) as [k|e] eqn:Hk; [|done].
      intros [= <-]. constructor; [done|]. by apply IH.
    + intros H. inversion H as [|? x ? k Hs Hk]; subst.
      rewrite Hs, bind_Ok. apply IH in Hk. by rewrite Hk.
Qed.

Lemma to_numeric_Raise col e :
  pd.to_numeric parse_float col = Raise e →
  e = ValueError ∧ Exists (λ s, pd.convert parse_float s = None) col.
Proof.
  induction col as [|s col IH]; [done|].
  rewrite to_numeric_cons.
  destruct (pd.convert parse_float s) as [x|] eqn:Hs.
  - rewrite bind_Ok.
    destruct (pd.to_numeric parse_float col) as [k|e'] eqn:Hk; [done|].
    intros [= <-]. destruct (IH eq_refl) as [-> Hex].
    split; [done|]. by apply Exists_cons_tl.
  - intros [= <-]. split; [done|]. by apply Exists_cons_hd.
Qed.

Lemma to_numeric_total col :
  (∃ l, pd.to_numeric parse_float col = Ok l) ∨
  pd.to_numeric parse_float col = Raise ValueError.
Proof.
  destruct (pd.to_numeric parse_float col) as [l|e] eqn:H; [by eauto|].
  right. by destruct (to_numeric_Raise _ _ H) as [-> _].
Qed.

Lemma to_numeric_ValueError col :
  Exists (λ s, pd.convert parse_float s = None) col →
  pd.to_numeric parse_float col = Raise ValueError.
Proof.
  intros Hex.
  destruct (to_numeric_total col) as [[l Hl]|H]; [|done].
  apply to_numeric_Ok in Hl. exfalso.
  induction Hl as [|s x col l Hs _ IH]; inversion Hex; subst;
    [congruence|auto].
Qed.

Lemma to_numeric_Forall col :
  Forall (λ s, is_Some (pd.convert parse_float s)) col →
  ∃ l, pd.to_numeric parse_float col = Ok l.
Proof.
  induction 1 as [|s col [x Hs] _ [l Hl]]; [by exists []|].
  exists (x :: l). by rewrite to_numeric_cons, Hs, bind_Ok, Hl.
Qed.

End to_numeric.

Section reshape.
Variable parse_float : string → option float.

Lemma reshape_nil : reshape parse_float [] = Raise AttributeError.
Proof. reflexivity. Qed.

Lemma reshape_cons m ms :
  reshape parse_float (m :: ms)
  = (totalBorrows ← pd.to_numeric parse_float (Market.totalBorrows <$> m :: ms);
     totalSupply ← pd.to_numeric parse_float (Market.totalSupply <$> m :: ms);
     borrowRate ← pd.to_numeric parse_float (Market.borrowRate <$> m :: ms);
     supplyRate ← pd.to_numeric parse_float (Market.supplyRate <$> m :: ms);
     exchangeRate ← pd.to_numeric parse_float (Market.exchangeRate <$> m :: ms);
     Ok (pd.reset_index 0 borrowRate supplyRate totalBorrows totalSupply
                        exchangeRate)).
Proof. reflexivity. Qed.

Lemma column_numeric (c : Market.t → string) markets l :
  pd.to_numeric parse_float (c <$> markets) = Ok l →
  Forall2 (λ m x, pd.convert parse_float (c m) = Some x) markets l.
Proof. intros H. apply to_numeric_Ok in H. by apply Forall2_fmap_l in H. Qed.

Lemma reset_index_converted markets : ∀ i br sr tb ts er,
  Forall2 (λ m x, pd.convert parse_float (Market.totalBorrows m) = Some x) markets tb →
  Forall2 (λ m x, pd.convert parse_float (Market.totalSupply m) = Some x) markets ts →
  Forall2 (λ m x, pd.convert parse_float (Market.borrowRate m) = Some x) markets br →
  Forall2 (λ m x, pd.convert parse_float (Market.supplyRate m) = Some x) markets sr →
  Forall2 (λ m x, pd.convert parse_float (Market.exchangeRate m) = Some x) markets er →
  Forall2 (converted parse_float) markets (pd.reset_index i br sr tb ts er) ∧
  index <$> pd.reset_index i br sr tb ts er
  = seqZ i (Z.of_nat (length markets)).
Proof.
  induction markets as [|m ms IH]; intros i br sr tb ts er Htb Hts Hbr Hsr Her.
  - inversion Htb; inversion Hts; inversion Hbr; inversion Hsr; inversion Her.
    subst. split; [constructor|done].
  - inversion Htb; inversion Hts; inversion Hbr; inversion Hsr; inversion Her.
    subst. simpl pd.reset_index.
    edestruct (IH (i + 1)) as [IH1 IH2]; [done..|].
    split.
    + by constructor.
    + rewrite fmap_cons, IH2, (seqZ_cons i) by (simpl; lia).
      simpl index. do 2 f_equal. simpl. lia.
Qed.

Lemma numeric_columns markets tb ts br sr er :
  Forall2 (λ m x, pd.convert parse_float (Market.totalBorrows m) = Some x) markets tb →
  Forall2 (λ m x, pd.convert parse_float (Market.totalSupply m) = Some x) markets ts →
  Forall2 (λ m x, pd.convert parse_float (Market.borrowRate m) = Some x) markets br →
  Forall2 (λ m x, pd.convert parse_float (Market.supplyRate m) = Some x) markets sr →
  Forall2 (λ m x, pd.convert parse_float (Market.exchangeRate m) = Some x) markets er →
  Forall (numeric parse_float) markets.
Proof.
  intros Htb Hts Hbr Hsr Her. apply Forall_lookup_2. intros i m Hm.
  destruct (Forall2_lookup_l _ _ _ _ _ Htb Hm) as (? & _ & ?).
  destruct (Forall2_lookup_l _ _ _ _ _ Hts Hm) as (? & _ & ?).
  destruct (Forall2_lookup_l _ _ _ _ _ Hbr Hm) as (? & _ & ?).
  destruct (Forall2_lookup_l _ _ _ _ _ Hsr Hm) as (? & _ & ?).
  destruct (Forall2_lookup_l _ _ _ _ _ Her Hm) as (? & _ & ?).
  by repeat split.
Qed.

(** The outcome of the reshape of a table that has rows: a table of the
    five converted values per row, or [ValueError]. *)
Lemma reshape_outcome m ms :
  (∃ df, reshape parse_float (m :: ms) = Ok df ∧
         Forall (numeric parse_float) (m :: ms) ∧
         Forall2 (converted parse_float) (m :: ms) df ∧
         index <$> df = seqZ 0 (Z.of_nat (length (m :: ms)))) ∨
  (reshape parse_float (m :: ms) = Raise ValueError ∧
   Exists (λ m, ¬ numeric parse_float m) (m :: ms)).
Proof.
  rewrite reshape_cons.
  destruct (pd.to_numeric parse_float (Market.totalBorrows <$> m :: ms))
    as [tb|e] eqn:Htb.
  2: { right. destruct (to_numeric_Raise _ _ _ Htb) as [-> Hex].
       split; [done|]. apply Exists_fmap in Hex.
       eapply Exists_impl; [exact Hex|].
       simpl. intros x Hx (H & _). rewrite Hx in H. by destruct H. }
  destruct (pd.to_numeric parse_float (Market.totalSupply <$> m :: ms))
    as [ts|e] eqn:Hts.
  2: { right. destruct (to_numeric_Raise _ _ _ Hts) as [-> Hex].
       split; [done|]. apply Exists_fmap in Hex.
       eapply Exists_impl; [exact Hex|].
       simpl. intros x Hx (_ & H & _). rewrite Hx in H. by destruct H. }
  destruct (pd.to_numeric parse_float (Market.borrowRate <$> m :: ms))
    as [br|e] eqn:Hbr.
  2: { right. destruct (to_numeric_Raise _ _ _ Hbr) as [-> Hex].
       split; [done|]. apply Exists_fmap in Hex.
       eapply Exists_impl; [exact Hex|].
       simpl. intros x Hx (_ & _ & H & _). rewrite Hx in H. by destruct H. }
  destruct (pd.to_numeric parse_float (Market.supplyRate <$> m :: ms))
    as [sr|e] eqn:Hsr.
  2: { right. destruct (to_numeric_Raise _ _ _ Hsr) as [-> Hex].
       split; [done|]. apply Exists_fmap in Hex.
       eapply Exists_impl; [exact Hex|].
       simpl. intros x Hx (_ & _ & _ & H & _). rewrite Hx in H. by destruct H. }
  destruct (pd.to_numeric parse_float (Market.exchangeRate <$> m :: ms))
    as [er|e] eqn:Her.
  2: { right. destruct (to_numeric_Raise _ _ _ Her) as [-> Hex].
       split; [done|]. apply Exists_fmap in Hex.
       eapply Exists_impl; [exact Hex|].
       simpl. intros x Hx (_ & _ & _ & _ & H). rewrite Hx in H. by destruct H. }
  left. rewrite !bind_Ok.
  apply column_numeric in Htb, Hts, Hbr, Hsr, Her.
  eexists. split; [reflexivity|].
  split; [by eapply numeric_columns|].
  by apply reset_index_converted.
Qed.

Lemma reshape_ValueError markets :
  Exists (λ m, ¬ numeric parse_float m) markets →
  reshape parse_float markets = Raise ValueError.
Proof.
  destruct markets as [|m ms]; [by inversion 1|].
  destruct (reshape_outcome m ms) as [(df & _ & Hnum & _) | (Hraise & _)];
    [|done].
  intros Hex. by apply Exists_not_Forall in Hex.
Qed.

End reshape.

(** C6, as amended.  The reshape converts the five columns
    [totalBorrows], [totalSupply], [borrowRate], [supplyRate] and
    [exchangeRate], cell by cell: an empty string becomes NaN, any other
    string the number it parses to.  A table it returns holds, row by row,
    these values of the five fields and the position of the row; a field
    that is neither empty nor a number, anywhere in the table, makes it
    raise [ValueError]; and it returns a table whenever the table has rows
    and every field is empty or a number. *)
Theorem C6_reshape_converts_or_raises (parse_float : string → option float)
    (markets : list Market.t) :
  pd.convert parse_float "" = Some nan ∧
  (∀ s, s ≠ "" → pd.convert parse_float s = parse_float s) ∧
  (Exists (λ m, ¬ numeric parse_float m) markets →
   reshape parse_float markets = Raise ValueError) ∧
  (∀ df, reshape parse_float markets = Ok df →
         Forall2 (converted parse_float) markets df ∧
         index <$> df = seqZ 0 (Z.of_nat (length markets))) ∧
  (markets ≠ [] → Forall (numeric parse_float) markets →
   ∃ df, reshape parse_float markets = Ok df).
Proof.
  split; [reflexivity|].
  split; [intros s Hs; unfold pd.convert; by destruct (decide (s = ""))|].
  split; [apply reshape_ValueError|].
  destruct markets as [|m ms].
  - split; [by rewrite reshape_nil|done].
  - destruct (reshape_outcome parse_float m ms)
      as [(df & Hdf & Hnum & Hconv & Hidx) | (Hraise & Hex)].
    + split; [|by eauto].
      intros df' Hdf'. rewrite Hdf in Hdf'. by injection Hdf' as <-.
    + split; [by rewrite Hraise|].
      intros _ Hall. by apply Exists_not_Forall in Hex.
Qed.

Lemma C6_reshape_converts_or_raises_witness :
  reshape sample_parse [market0; market_bad] = Raise ValueError ∧
  (Forall2 (converted sample_parse) [market0; market1] [row0; row1] ∧
   index <$> [row0; row1] = seqZ 0 (Z.of_nat (length [market0; market1]))) ∧
  ∃ df, reshape sample_parse [market0; market_blank] = Ok df.
Proof.
  split; [|split].
  - apply (C6_reshape_converts_or_raises sample_parse [market0; market_bad]).
    apply Exists_cons_tl, Exists_cons_hd.
    intros (_ & _ & _ & [x Hx] & _). discriminate Hx.
  - apply (C6_reshape_converts_or_raises sample_parse [market0; market1]).
    reflexivity.
  - apply (C6_reshape_converts_or_raises sample_parse [market0; market_blank]).
    + discriminate.
    + repeat constructor; by eexists.
Defined.

(** C6 as stated fails: the empty string in the [supplyRate] column of
    [[market0; market_blank]] is not a number (the parser rejects it), yet
    the reshape raises nothing and returns a table that holds NaN in its
    place. *)
Lemma C6_counterexample :
  Market.supplyRate market_blank = "" ∧
  sample_parse (Market.supplyRate market_blank) = None ∧
  ∃ row,
    reshape sample_parse [market0; market_blank] = Ok [row0; row] ∧
    is_nan (supplyRate row) = true ∧
    index row = 1.
Proof.
  split; [reflexivity|]. split; [reflexivity|].
  exists {| index := 1; borrowRate := 0.5; supplyRate := nan;
            totalBorrows := 1; totalSupply := 4; exchangeRate := 0.125 |}.
  split; [reflexivity|]. split; reflexivity.
Qed.

(** ** The dashboard *)

Lemma for_cons {A} (x : A) xs (body : A → UI ()) :
  for_ (x :: xs) body = (body x ;; for_ xs body).
Proof. reflexivity. Qed.

Lemma for_chart (table : list State) : ∀ n k,
  (k + n ≤ length table)%nat →
  for_ (seq k n) (λ i,
    new_rows ← lift (iloc table i);
    emit (chart_add_rows new_rows);;
    emit (time_sleep pause))
  = (chart_loop (take n (drop k table)), Ok ()).
Proof.
  induction n as [|n IH]; intros k Hk; [done|].
  destruct (lookup_lt_is_Some_2 table k) as [row Hrow]; [lia|].
  rewrite <- cons_seq, for_cons, IH by lia.
  unfold iloc. rewrite Hrow.
  rewrite (drop_S _ _ _ Hrow). reflexivity.
Qed.

Lemma rows_added_app tr1 tr2 :
  rows_added (tr1 ++ tr2) = rows_added tr1 ++ rows_added tr2.
Proof. apply omap_app. Qed.

Lemma rows_added_chart_loop table : rows_added (chart_loop table) = table.
Proof.
  induction table as [|row table IH]; [done|].
  unfold chart_loop. rewrite fmap_cons. simpl. f_equal. exact IH.
Qed.

Lemma chart_section_run (w : World) (table : list State) :
  run_simulation w = true →
  chart_section w table
  = ([st_subheader "Simulation Chart"; st_line_chart] ++ chart_loop table,
     Ok ()).
Proof.
  intros Hrun. unfold chart_section. rewrite Hrun.
  pose proof (for_chart table (length table) 0 (le_n _)) as Hchart.
  rewrite drop_0, firstn_all in Hchart.
  unfold emit, lift in *. cbn [mbind mret UI_bind UI_ret] in *.
  by rewrite Hchart.
Qed.

(** For a table of 1 to 99 records the first value of the progress loop
    is above 1, and the progress bar refuses it. *)
Lemma first_percent_rejected (n : nat) :
  (1 ≤ n ≤ 99)%nat →
  ∃ value,
    percent 1 (Z.of_nat n) = Ok value ∧
    (value <=? 1)%float = false ∧
    st.progress_value value = Raise StreamlitAPIException.
Proof.
  intros Hn.
  assert (Hall : forallb (λ n : nat,
            match percent 1 (Z.of_nat n) with
            | Ok value =>
                negb (value <=? 1)%float &&
                match st.progress_value value with
                | Raise StreamlitAPIException => true
                | _ => false
                end
            | Raise _ => false
            end) (seq 1 99) = true) by (vm_compute; reflexivity).
  rewrite forallb_forall in Hall.
  specialize (Hall n). rewrite in_seq in Hall. specialize (Hall ltac:(lia)).
  destruct (percent 1 (Z.of_nat n)) as [value|e]; [|done].
  exists value. split; [done|].
  apply andb_prop in Hall as [H1 H2].
  split; [by apply negb_true_iff|].
  destruct (st.progress_value value) as [u|[]]; done.
Qed.

Lemma results_section_rejected (w : World) (result0 table : list State) :
  run_simulation w = true →
  (1 ≤ length table ≤ 99)%nat →
  ∃ value,
    percent 1 (Z.of_nat (length table)) = Ok value ∧
    (value <=? 1)%float = false ∧
    results_section w (Ok table) result0
    = ([st_progress 0; st_empty; status_text_text value],
       Raise StreamlitAPIException).
Proof.
  intros Hrun Hlen.
  destruct (first_percent_rejected _ Hlen) as (value & Hv & Hgt & Hrej).
  exists value. split; [exact Hv|]. split; [exact Hgt|].
  unfold results_section. rewrite Hrun.
  unfold emit, lift. cbn [mbind mret UI_bind UI_ret].
  destruct (length table) as [|n] eqn:Hn; [lia|].
  rewrite <- cons_seq, for_cons. cbn [mbind mret UI_bind UI_ret].
  change (Z.of_nat 0 + 1) with 1. rewrite Hv, Hrej. reflexivity.
Qed.

Lemma dashboard_rejected (w : World) (result0 table : list State) :
  run_simulation w = true →
  (1 ≤ length table ≤ 99)%nat →
  ∃ value,
    percent 1 (Z.of_nat (length table)) = Ok value ∧
    (value <=? 1)%float = false ∧
    dashboard w (Ok table) result0
    = ([st_title "cadCAD Simulation with Streamlit";
        st_sidebar_button "Run Simulation"; st_sidebar_button "Re-run";
        st_progress 0; st_empty; status_text_text value],
       Raise StreamlitAPIException).
Proof.
  intros Hrun Hlen.
  destruct (results_section_rejected w result0 table Hrun Hlen)
    as (value & Hv & Hgt & Hrs).
  exists value. split; [exact Hv|]. split; [exact Hgt|].
  unfold dashboard, emit. cbn [mbind mret UI_bind UI_ret].
  by rewrite Hrs.
Qed.

Lemma script_after_df (w : World) (rows : list Row) :
  df w = Ok rows → script w = ([], Raise KeyError).
Proof. intros Hdf. unfold script. by rewrite Hdf. Qed.

(** C7 at the table of [market0] and [market1], with the run button
    pressed: the script raises [KeyError] where it hands the configuration
    to the engine, before any widget is called, so no row reaches the
    chart.  With the result table at hand, the plot raises [ValueError]
    (the column [exchange_rate] holds strings beside numbers), and the
    dashboard raises at the first call of [progress_bar.progress], whose
    argument [1 / 3 * 100] is above [1.0]: it has then appended no row and
    has not slept.  The chart section on its own does what the claim
    says. *)
Theorem C7_run_button_raises_before_the_chart :
  ∃ (table : list State) (value : float),
    df (sample_world (Ok "{data}") [market0; market1] true false)
    = Ok [row0; row1] ∧
    raw_result [row0; row1] = Ok table ∧
    length table = 3%nat ∧
    script (sample_world (Ok "{data}") [market0; market1] true false)
    = ([], Raise KeyError) ∧
    px_line table = Raise ValueError ∧
    percent 1 3 = Ok value ∧
    (value <=? 1)%float = false ∧
    dashboard (sample_world (Ok "{data}") [market0; market1] true false)
      (Ok table) table
    = ([st_title "cadCAD Simulation with Streamlit";
        st_sidebar_button "Run Simulation"; st_sidebar_button "Re-run";
        st_progress 0; st_empty; status_text_text value],
       Raise StreamlitAPIException) ∧
    chart_section (sample_world (Ok "{data}") [market0; market1] true false)
      table
    = ([st_subheader "Simulation Chart"; st_line_chart]
       ++ concat ((λ row, [chart_add_rows row; time_sleep pause]) <$> table),
       Ok ()).
Proof.
  set (w := sample_world (Ok "{data}") [market0; market1] true false).
  set (table := the_genesis
         :: trajectory (the_params [row0; row1]) 1 0 the_genesis [row0; row1]).
  destruct (dashboard_rejected w table table eq_refl)
    as (value & Hv & Hgt & Hdash); [simpl; lia|].
  exists table, value.
  split; [reflexivity|].
  split; [apply raw_result_trajectory|].
  split; [reflexivity|].
  split; [by apply (script_after_df w [row0; row1])|].
  split; [by vm_compute|].
  split; [exact Hv|].
  split; [exact Hgt|].
  split; [exact Hdash|].
  by apply chart_section_run.
Qed.

(** ** Failures *)

Lemma ts_data_Raise params (s : State) e :
  ts_data params s = Raise e → e = KeyError.
Proof.
  unfold ts_data, getitem.
  destruct (s !! "timestep") as [t|]; [|by intros [= <-]].
  rewrite bind_Ok. destruct t as [z| |]; simpl; try by intros [= <-].
  unfold getitem. destruct (new_df params !! z); [done|by intros [= <-]].
Qed.

Lemma script_Raise (w : World) e : df w = Raise e → script w = ([], Raise e).
Proof. intros H. unfold script. by rewrite H. Qed.

(** C5.  Division by zero is caught: the policy never raises
    [ZeroDivisionError], and on a row whose [totalSupply] is zero it
    returns [0] for the utilization, so that the simulation of every
    reshaped table returns.  Nothing else is caught: an exception of the
    HTTP request, of the JSON decoder, of a missing key of the response,
    of the numeric conversion, or of the reshape of an empty list of
    markets is the outcome of the whole script, which has then displayed
    nothing. *)
Theorem C5_only_zero_division_is_guarded (w : World) :
  (∀ params substep sH (s : State),
     p_rates params substep sH s ≠ Raise ZeroDivisionError) ∧
  (∀ params substep sH (s : State) t row,
     s !! "timestep" = Some (PyInt t) →
     new_df params !! t = Some row →
     (totalSupply row =? 0)%float = true →
     ∃ policy_input : State,
       p_rates params substep sH s = Ok policy_input ∧
       policy_input !! "utilization_rate" = Some (PyInt 0)) ∧
  (∀ rows, ∃ table, raw_result rows = Ok table) ∧
  (∀ e, post w = Raise e → script w = ([], Raise e)) ∧
  (∀ r e, post w = Ok r → json_loads w r = Raise e →
          script w = ([], Raise e)) ∧
  (∀ r (j : Json), post w = Ok r → json_loads w r = Ok j →
          j !! "data" = None → script w = ([], Raise KeyError)) ∧
  (∀ ms, markets w = Ok ms →
         Exists (λ m, ¬ numeric (parse_float w) m) ms →
         script w = ([], Raise ValueError)) ∧
  (markets w = Ok [] → script w = ([], Raise AttributeError)) ∧
  (∀ e, df w = Raise e → script w = ([], Raise e)).
Proof.
  split.
  { intros params substep sH s H. rewrite p_rates_ts_data in H.
    destruct (ts_data params s) as [row|e] eqn:Hts; [done|].
    apply ts_data_Raise in Hts. injection H as ->. done. }
  split.
  { intros params substep sH s t row Ht Hrow Hzero.
    exists (policy_of params row).
    split; [by apply (p_rates_row _ _ _ _ t)|].
    unfold policy_of, utilization_of. by rewrite Hzero. }
  split.
  { intros rows. eexists. apply raw_result_trajectory. }
  split.
  { intros e H. apply script_Raise.
    unfold df, markets, graph_data. by rewrite H. }
  split.
  { intros r e Hr H. apply script_Raise.
    unfold df, markets, graph_data. by rewrite Hr, bind_Ok, H. }
  split.
  { intros r j Hr Hj H. apply script_Raise.
    unfold df, markets, graph_data.
    by rewrite Hr, bind_Ok, Hj, bind_Ok, (getitem_None _ _ H). }
  split.
  { intros ms Hms Hex. apply script_Raise. unfold df. rewrite Hms, bind_Ok.
    by apply reshape_ValueError. }
  split.
  { intros Hms. apply script_Raise. unfold df. by rewrite Hms. }
  apply script_Raise.
Qed.

Lemma C5_only_zero_division_is_guarded_witness :
  script (sample_world (Raise ConnectionError) [market0] true false)
  = ([], Raise ConnectionError) ∧
  script (sample_world (Ok "<html>") [market0] true false)
  = ([], Raise JSONDecodeError) ∧
  script (sample_world (Ok "{errors}") [market0] true false)
  = ([], Raise KeyError) ∧
  script (sample_world (Ok "{data}") [market0; market_bad] true false)
  = ([], Raise ValueError) ∧
  script (sample_world (Ok "{data}") [] true false)
  = ([], Raise AttributeError) ∧
  ∃ policy_input : State,
    p_rates (the_params [row0; row1]) 1 [] (<["timestep" := PyInt 1]> ∅)
    = Ok policy_input ∧
    policy_input !! "utilization_rate" = Some (PyInt 0).
Proof.
  split; [|split; [|split; [|split; [|split]]]].
  - destruct (C5_only_zero_division_is_guarded
                (sample_world (Raise ConnectionError) [market0] true false))
      as (_ & _ & _ & H & _).
    apply H. reflexivity.
  - destruct (C5_only_zero_division_is_guarded
                (sample_world (Ok "<html>") [market0] true false))
      as (_ & _ & _ & _ & H & _).
    apply (H "<html>"); reflexivity.
  - destruct (C5_only_zero_division_is_guarded
                (sample_world (Ok "{errors}") [market0] true false))
      as (_ & _ & _ & _ & _ & H & _).
    apply (H "{errors}" ∅); reflexivity.
  - destruct (C5_only_zero_division_is_guarded
                (sample_world (Ok "{data}") [market0; market_bad] true false))
      as (_ & _ & _ & _ & _ & _ & H & _).
    apply (H [market0; market_bad]); [reflexivity|].
    apply Exists_cons_tl, Exists_cons_hd.
    intros (_ & _ & _ & [x Hx] & _). discriminate Hx.
  - destruct (C5_only_zero_division_is_guarded
                (sample_world (Ok "{data}") [] true false))
      as (_ & _ & _ & _ & _ & _ & _ & H & _).
    apply H. reflexivity.
  - destruct (C5_only_zero_division_is_guarded
                (sample_world (Ok "{data}") [market0] true false))
      as (_ & H & _).
    apply (H (the_params [row0; row1]) 1 [] (<["timestep" := PyInt 1]> ∅)
             1 row1); reflexivity.
Defined.

(** * Further properties of the script *)

(** ** The policy and the state update functions *)

(** X1.  The policy raises nothing but [KeyError], and it raises it when
    the previous state has no ['timestep'], when the table has no row at
    that timestep, and so for every timestep outside [0 .. n - 1] of a
    table of [n] rows. *)
Theorem X1_p_rates_raises_only_KeyError (params : Params) (substep : Z)
    (sH : list (list State)) (s : State) :
  (∀ e, p_rates params substep sH s = Raise e → e = KeyError) ∧
  (s !! "timestep" = None → p_rates params substep sH s = Raise KeyError) ∧
  (∀ t, s !! "timestep" = Some (PyInt t) → new_df params !! t = None →
        p_rates params substep sH s = Raise KeyError) ∧
  (∀ (df : list Row) t,
     s !! "timestep" = Some (PyInt t) →
     t < 0 ∨ Z.of_nat (length df) ≤ t →
     p_rates (the_params df) substep sH s = Raise KeyError).
Proof.
  assert (Hnone : ∀ params' t, s !! "timestep" = Some (PyInt t) →
            new_df params' !! t = None →
            p_rates params' substep sH s = Raise KeyError).
  { intros params' t Ht Hrow. rewrite p_rates_ts_data. unfold ts_data.
    rewrite (getitem_Some _ _ _ Ht), bind_Ok. simpl getitem_row.
    by rewrite (getitem_None _ _ Hrow). }
  split; [|split; [|split]].
  - intros e H. rewrite p_rates_ts_data in H.
    destruct (ts_data params s) as [row|e'] eqn:Hts; [done|].
    injection H as <-. by apply ts_data_Raise in Hts.
  - intros Ht. rewrite p_rates_ts_data. unfold ts_data.
    by rewrite (getitem_None _ _ Ht).
  - apply Hnone.
  - intros df t Ht Hout. apply (Hnone _ t Ht). simpl. unfold pd.to_dict.
    apply lookup_map_seqZ_None. lia.
Qed.

Lemma X1_p_rates_raises_only_KeyError_witness :
  p_rates (the_params [row0; row1]) 1 [] ∅ = Raise KeyError ∧
  p_rates (the_params [row0; row1]) 1 [] (<["timestep" := PyInt 2]> ∅)
  = Raise KeyError.
Proof.
  split.
  - apply (X1_p_rates_raises_only_KeyError (the_params [row0; row1]) 1 [] ∅).
    reflexivity.
  - apply (X1_p_rates_raises_only_KeyError (the_params [row0; row1]) 1 []
             (<["timestep" := PyInt 2]> ∅)) with (t := 2).
    + reflexivity.
    + right. simpl. lia.
Defined.

Lemma dom_policy_of params row : dom (policy_of params row) = policy_keys.
Proof.
  unfold policy_of, policy_keys. rewrite !dom_insert_L, dom_empty_L.
  set_solver.
Qed.

(** X2.  Whatever the policy returns is accepted by the four state update
    functions: its dictionary has exactly the four keys they read, and
    each of them returns the name of its variable with the policy's value
    for it, in whatever state it is called. *)
Theorem X2_state_updates_accept_policy_output (params : Params) (substep : Z)
    (sH : list (list State)) (s policy_input : State) :
  p_rates params substep sH s = Ok policy_input →
  dom policy_input = policy_keys ∧
  ∃ v1 v2 v3 v4,
    policy_input !! "lender_APY" = Some v1 ∧
    policy_input !! "borrower_rate" = Some v2 ∧
    policy_input !! "utilization_rate" = Some v3 ∧
    policy_input !! "exchange_rate" = Some v4 ∧
    ∀ params' substep' sH' (s' : State),
      s_lender_APY params' substep' sH' s' policy_input
      = Ok ("lender_APY", v1) ∧
      s_borrower_APY params' substep' sH' s' policy_input
      = Ok ("borrower_rate", v2) ∧
      s_utilization_rate params' substep' sH' s' policy_input
      = Ok ("utilization_rate", v3) ∧
      s_exchange_rate params' substep' sH' s' policy_input
      = Ok ("exchange_rate", v4).
Proof.
  rewrite p_rates_ts_data.
  destruct (ts_data params s) as [row|e]; [|done].
  intros [= <-]. split; [apply dom_policy_of|].
  by exists (PyFloat (supplyRate row)), (PyFloat (borrowRate row)),
            (utilization_of row), (PyStr (exchange_rate params)).
Qed.

Lemma X2_state_updates_accept_policy_output_witness :
  dom (policy_of (the_params [row0; row1]) row1) = policy_keys ∧
  ∃ v1 v2 v3 v4,
    policy_of (the_params [row0; row1]) row1 !! "lender_APY" = Some v1 ∧
    policy_of (the_params [row0; row1]) row1 !! "borrower_rate" = Some v2 ∧
    policy_of (the_params [row0; row1]) row1 !! "utilization_rate" = Some v3 ∧
    policy_of (the_params [row0; row1]) row1 !! "exchange_rate" = Some v4 ∧
    ∀ params' substep' sH' (s' : State),
      s_lender_APY params' substep' sH' s'
        (policy_of (the_params [row0; row1]) row1)
      = Ok ("lender_APY", v1) ∧
      s_borrower_APY params' substep' sH' s'
        (policy_of (the_params [row0; row1]) row1)
      = Ok ("borrower_rate", v2) ∧
      s_utilization_rate params' substep' sH' s'
        (policy_of (the_params [row0; row1]) row1)
      = Ok ("utilization_rate", v3) ∧
      s_exchange_rate params' substep' sH' s'
        (policy_of (the_params [row0; row1]) row1)
      = Ok ("exchange_rate", v4).
Proof.
  apply (X2_state_updates_accept_policy_output (the_params [row0; row1]) 1 []
           (<["timestep" := PyInt 1]> ∅)).
  reflexivity.
Defined.

(** ** The result table *)

Lemma utilization_of_same_rates r1 r2 :
  same_rates r1 r2 → utilization_of r1 = utilization_of r2.
Proof.
  intros (_ & _ & Htb & Hts). unfold utilization_of. by rewrite Htb, Hts.
Qed.

Lemma updated_same_rates p1 p2 r1 r2 time_step run (s : State) :
  exchange_rate p1 = exchange_rate p2 →
  same_rates r1 r2 →
  updated p1 r1 time_step run s = updated p2 r2 time_step run s.
Proof.
  intros Hp Hr. unfold updated.
  rewrite Hp, (utilization_of_same_rates _ _ Hr).
  destruct Hr as (-> & -> & _). reflexivity.
Qed.

Lemma trajectory_same_rates p1 p2 run df1 df2 :
  exchange_rate p1 = exchange_rate p2 →
  Forall2 same_rates df1 df2 →
  ∀ k (s : State),
    trajectory p1 run k s df1 = trajectory p2 run k s df2.
Proof.
  intros Hp. induction 1 as [|r1 r2 df1 df2 Hr _ IH]; intros k s; [done|].
  simpl. rewrite (updated_same_rates p1 p2 r1 r2 _ _ _ Hp Hr).
  by rewrite IH.
Qed.

(** X3.  The result of the simulation depends on the table only through
    the columns [supplyRate], [borrowRate], [totalBorrows] and
    [totalSupply]: two tables that agree on them row by row give the same
    result, whatever their [exchangeRate] and [index] columns hold. *)
Theorem X3_result_ignores_exchangeRate_column (df1 df2 : list Row) :
  Forall2 same_rates df1 df2 →
  raw_result df1 = raw_result df2.
Proof.
  intros H. rewrite !raw_result_trajectory. do 2 f_equal.
  by apply trajectory_same_rates.
Qed.

Lemma X3_result_ignores_exchangeRate_column_witness :
  raw_result [row0]
  = raw_result [ {| index := 7; borrowRate := 0.5; supplyRate := 0.25;
                    totalBorrows := 1; totalSupply := 4;
                    exchangeRate := 64 |} ].
Proof.
  apply X3_result_ignores_exchangeRate_column.
  by repeat constructor.
Defined.

Lemma dom_initial_state : dom initial_state = policy_keys.
Proof.
  unfold initial_state, policy_keys. rewrite !dom_insert_L, dom_empty_L.
  set_solver.
Qed.

Lemma plotted_the_genesis : plotted_keys ⊆ dom the_genesis.
Proof.
  unfold the_genesis, plotted_keys. rewrite !dom_insert_L, dom_initial_state.
  intros key. rewrite !elem_of_union. tauto.
Qed.

Lemma plotted_updated params row time_step run (s : State) :
  plotted_keys ⊆ dom (updated params row time_step run s).
Proof.
  unfold updated, plotted_keys, policy_keys. rewrite !dom_insert_L.
  intros key. rewrite !elem_of_union. tauto.
Qed.

Lemma plotted_trajectory params run rows : ∀ k (s : State),
  Forall (λ r : State, plotted_keys ⊆ dom r) (trajectory params run k s rows).
Proof.
  induction rows as [|row rows IH]; intros k s; simpl; constructor.
  - apply plotted_updated.
  - apply IH.
Qed.

(** X4.  The four state variables of [initial_state] are exactly the four
    keys that the policy returns and the state update functions write,
    and every record of the result holds them and ['timestep']: the
    columns that the line plot reads exist in every row. *)
Theorem X4_records_have_the_plotted_columns (df : list Row) :
  ∃ table,
    raw_result df = Ok table ∧
    dom initial_state = policy_keys ∧
    Forall (λ r : State, plotted_keys ⊆ dom r) table ∧
    Forall (λ r : State,
              is_Some (r !! "timestep") ∧ is_Some (r !! "lender_APY") ∧
              is_Some (r !! "borrower_rate") ∧
              is_Some (r !! "utilization_rate") ∧
              is_Some (r !! "exchange_rate")) table.
Proof.
  eexists. split; [apply raw_result_trajectory|].
  split; [apply dom_initial_state|].
  assert (Hdom : Forall (λ r : State, plotted_keys ⊆ dom r)
            (the_genesis
             :: trajectory (the_params df) 1 0 the_genesis df)).
  { constructor; [apply plotted_the_genesis|apply plotted_trajectory]. }
  split; [exact Hdom|].
  eapply Forall_impl; [exact Hdom|].
  intros r Hr. simpl. rewrite <- !elem_of_dom.
  unfold plotted_keys, policy_keys in Hr.
  repeat split; apply Hr; rewrite !elem_of_union, !elem_of_singleton; tauto.
Qed.

(** ** The dictionary of rows *)

(** X5.  For a table that the reshape returns, the dictionary of rows has
    one entry per market, its keys are [0 .. n - 1], and the row under key
    [k] is the conversion of market [k] and carries [k] in its [index]
    column. *)
Theorem X5_dictionary_keys_are_positions
    (parse_float : string → option float) (markets : list Market.t)
    (df : list Row) :
  reshape parse_float markets = Ok df →
  size (pd.to_dict df) = length markets ∧
  (∀ k row, pd.to_dict df !! k = Some row →
            0 ≤ k < Z.of_nat (length markets) ∧ index row = k) ∧
  (∀ (i : nat) m, markets !! i = Some m →
     ∃ row, pd.to_dict df !! Z.of_nat i = Some row ∧
            converted parse_float m row).
Proof.
  intros Hdf.
  destruct markets as [|m0 ms]; [by rewrite reshape_nil in Hdf|].
  destruct (reshape_outcome parse_float m0 ms)
    as [(df' & Hdf' & _ & Hconv & Hidx) | (Hraise & _)];
    [|by rewrite Hraise in Hdf].
  rewrite Hdf' in Hdf. injection Hdf as ->.
  pose proof (Forall2_length _ _ _ Hconv) as Hlen.
  split; [by rewrite size_to_dict|].
  split.
  - intros k row Hk. unfold pd.to_dict in Hk.
    apply lookup_map_seqZ_Some in Hk as [Hk0 Hk].
    rewrite Z.sub_0_r in Hk.
    pose proof (lookup_lt_Some _ _ _ Hk) as Hlt.
    split; [lia|].
    assert (Hi : (index <$> df) !! Z.to_nat k = Some (index row))
      by (by rewrite list_lookup_fmap, Hk).
    rewrite Hidx in Hi. apply lookup_seqZ in Hi as [-> _]. lia.
  - intros i m Hm.
    destruct (Forall2_lookup_l _ _ _ _ _ Hconv Hm) as (row & Hrow & Hc).
    exists row. by rewrite lookup_to_dict.
Qed.

Lemma X5_dictionary_keys_are_positions_witness :
  size (pd.to_dict [row0; row1]) = length [market0; market1] ∧
  (∀ k row, pd.to_dict [row0; row1] !! k = Some row →
            0 ≤ k < Z.of_nat (length [market0; market1]) ∧ index row = k) ∧
  (∀ (i : nat) m, [market0; market1] !! i = Some m →
     ∃ row, pd.to_dict [row0; row1] !! Z.of_nat i = Some row ∧
            converted sample_parse m row).
Proof.
  apply (X5_dictionary_keys_are_positions sample_parse [market0; market1]).
  reflexivity.
Defined.

(** ** The utilization on special values *)

Lemma is_nan_Prim2SF (x : float) : is_nan x = true → Prim2SF x = S754_nan.
Proof.
  unfold is_nan. rewrite FloatAxioms.eqb_spec. unfold SFeqb, SFcompare.
  destruct (Prim2SF x) as [s|s| |s m e]; [done|by destruct s|done|].
  destruct s; rewrite Z.compare_refl; simpl;
    rewrite Pos.compare_refl; discriminate.
Qed.

Lemma Prim2SF_is_nan (x : float) : Prim2SF x = S754_nan → is_nan x = true.
Proof. intros H. unfold is_nan. by rewrite FloatAxioms.eqb_spec, H. Qed.

Lemma eqb_zero_Prim2SF (x : float) :
  (x =? 0)%float = true → ∃ s, Prim2SF x = S754_zero s.
Proof.
  rewrite FloatAxioms.eqb_spec.
  change (Prim2SF 0) with (S754_zero false). unfold SFeqb, SFcompare.
  destruct (Prim2SF x) as [s|s| |s m e]; [by eauto|by destruct s|done|].
  by destruct s.
Qed.

Lemma Prim2SF_eqb_zero (x : float) s :
  Prim2SF x = S754_zero s → (x =? 0)%float = true.
Proof.
  intros H. rewrite FloatAxioms.eqb_spec, H.
  by change (Prim2SF 0) with (S754_zero false).
Qed.

Lemma Prim2SF_100 : ∃ m e, Prim2SF 100 = S754_finite false m e.
Proof. vm_compute. by eauto. Qed.

(** X6.  A [totalSupply] that is not a number is not caught by the guard
    of the division: the policy returns, and the utilization it stores is
    itself not a number (not [0]).  The same holds when [totalBorrows] is
    not a number and [totalSupply] is not zero. *)
Theorem X6_nan_is_not_guarded (params : Params) (substep : Z)
    (sH : list (list State)) (s : State) (t : Z) (row : Row) :
  s !! "timestep" = Some (PyInt t) →
  new_df params !! t = Some row →
  is_nan (totalSupply row) = true ∨
  (is_nan (totalBorrows row) = true ∧ (totalSupply row =? 0)%float = false) →
  ∃ (policy_input : State) (f : float),
    p_rates params substep sH s = Ok policy_input ∧
    policy_input !! "utilization_rate" = Some (PyFloat f) ∧
    is_nan f = true.
Proof.
  intros Ht Hrow Hnan.
  exists (policy_of params row),
         (totalBorrows row / totalSupply row * 100)%float.
  split; [by apply (p_rates_row _ _ _ _ t)|].
  assert (Hguard : (totalSupply row =? 0)%float = false).
  { destruct Hnan as [Hts|[_ Hts]]; [|done].
    by rewrite FloatAxioms.eqb_spec, (is_nan_Prim2SF _ Hts). }
  split.
  - unfold policy_of, utilization_of. by rewrite Hguard.
  - apply Prim2SF_is_nan. rewrite mul_spec, div_spec.
    destruct Hnan as [Hts|[Htb _]].
    + rewrite (is_nan_Prim2SF _ Hts).
      by destruct (Prim2SF (totalBorrows row)).
    + by rewrite (is_nan_Prim2SF _ Htb).
Qed.

Lemma X6_nan_is_not_guarded_witness :
  ∃ (policy_input : State) (f : float),
    p_rates (the_params [row_nan]) 1 [] (<["timestep" := PyInt 0]> ∅)
    = Ok policy_input ∧
    policy_input !! "utilization_rate" = Some (PyFloat f) ∧
    is_nan f = true.
Proof.
  apply (X6_nan_is_not_guarded (the_params [row_nan]) 1 []
           (<["timestep" := PyInt 0]> ∅) 0 row_nan);
    [reflexivity|reflexivity|by left].
Defined.

(** X7.  For a market nobody has borrowed from ([totalBorrows] is zero)
    whose [totalSupply] is a number other than zero, the utilization is
    the float zero. *)
Theorem X7_no_borrows_no_utilization (params : Params) (substep : Z)
    (sH : list (list State)) (s : State) (t : Z) (row : Row) :
  s !! "timestep" = Some (PyInt t) →
  new_df params !! t = Some row →
  (totalBorrows row =? 0)%float = true →
  (totalSupply row =? 0)%float = false →
  is_nan (totalSupply row) = false →
  ∃ (policy_input : State) (f : float),
    p_rates params substep sH s = Ok policy_input ∧
    policy_input !! "utilization_rate" = Some (PyFloat f) ∧
    (f =? 0)%float = true.
Proof.
  intros Ht Hrow Htb Hts Hnum.
  exists (policy_of params row),
         (totalBorrows row / totalSupply row * 100)%float.
  split; [by apply (p_rates_row _ _ _ _ t)|].
  split.
  - unfold policy_of, utilization_of. by rewrite Hts.
  - destruct (eqb_zero_Prim2SF _ Htb) as [sb Hb].
    destruct Prim2SF_100 as (m & e & H100).
    assert (Hq : ∃ sq, SF64div (Prim2SF (totalBorrows row))
                               (Prim2SF (totalSupply row)) = S754_zero sq).
    { rewrite Hb.
      destruct (Prim2SF (totalSupply row)) as [su|su| |su mu eu] eqn:Hu.
      - by rewrite (Prim2SF_eqb_zero _ _ Hu) in Hts.
      - by eexists.
      - by rewrite (Prim2SF_is_nan _ Hu) in Hnum.
      - by eexists. }
    destruct Hq as [sq Hq].
    apply (Prim2SF_eqb_zero _ (xorb sq false)).
    by rewrite mul_spec, div_spec, Hq, H100.
Qed.

Lemma X7_no_borrows_no_utilization_witness :
  ∃ (policy_input : State) (f : float),
    p_rates (the_params [row_idle]) 1 [] (<["timestep" := PyInt 0]> ∅)
    = Ok policy_input ∧
    policy_input !! "utilization_rate" = Some (PyFloat f) ∧
    (f =? 0)%float = true.
Proof.
  apply (X7_no_borrows_no_utilization (the_params [row_idle]) 1 []
           (<["timestep" := PyInt 0]> ∅) 0 row_idle); reflexivity.
Defined.

(** ** The script as a whole *)

Lemma sleeps_app tr1 tr2 : sleeps (tr1 ++ tr2) = sleeps tr1 ++ sleeps tr2.
Proof. apply omap_app. Qed.

Lemma reruns_app tr1 tr2 : reruns (tr1 ++ tr2) = (reruns tr1 + reruns tr2)%nat.
Proof. unfold reruns. by rewrite omap_app, length_app. Qed.

Lemma script_displays_nothing (w : World) :
  (script w).1 = [] ∧ ∃ e, (script w).2 = Raise e.
Proof.
  destruct (df w) as [rows|e] eqn:Hdf.
  - rewrite (script_after_df w rows Hdf). by eauto.
  - rewrite (script_Raise w e Hdf). by eauto.
Qed.



Lemma dashboard_idle (w : World) (execute : result (list State))
    (result : list State) :
  run_simulation w = false →
  dashboard w execute result
  = ([st_title "cadCAD Simulation with Streamlit";
      st_sidebar_button "Run Simulation"; st_sidebar_button "Re-run";
      st_subheader "Simulation Chart"; st_line_chart]
     ++ (if re_run w then [st_experimental_rerun] else []), Ok ()).
Proof.
  intros Hrun. unfold dashboard, results_section, chart_section, emit.
  rewrite Hrun. cbn [mbind mret UI_bind UI_ret].
  by destruct (re_run w).
Qed.

(** X9.  Without the run button the script pauses nowhere, updates no
    progress bar and appends no row to the chart; and neither does the
    dashboard, whatever result table it is given. *)
Theorem X9_idle_without_run_button (w : World) (rows : list Row) :
  df w = Ok rows →
  run_simulation w = false →
  sleeps (script w).1 = [] ∧
  progress_updates (script w).1 = [] ∧
  rows_added (script w).1 = [] ∧
  ∀ (execute : result (list State)) (result : list State),
    sleeps (dashboard w execute result).1 = [] ∧
    progress_updates (dashboard w execute result).1 = [] ∧
    rows_added (dashboard w execute result).1 = [].
Proof.
  intros Hdf Hrun. rewrite (script_after_df w rows Hdf).
  do 3 (split; [reflexivity|]).
  intros execute result. rewrite (dashboard_idle w execute result Hrun).
  by destruct (re_run w).
Qed.

Lemma X9_idle_without_run_button_witness :
  sleeps (script (sample_world (Ok "{data}") [market0] false true)).1 = [] ∧
  progress_updates
    (script (sample_world (Ok "{data}") [market0] false true)).1 = [] ∧
  rows_added (script (sample_world (Ok "{data}") [market0] false true)).1 = [] ∧
  ∀ (execute : result (list State)) (result : list State),
    sleeps (dashboard (sample_world (Ok "{data}") [market0] false true)
              execute result).1 = [] ∧
    progress_updates (dashboard (sample_world (Ok "{data}") [market0] false true)
                        execute result).1 = [] ∧
    rows_added (dashboard (sample_world (Ok "{data}") [market0] false true)
                  execute result).1 = [].
Proof.
  apply (X9_idle_without_run_button
           (sample_world (Ok "{data}") [market0] false true) [row0]);
    reflexivity.
Defined.

(** X10.  With the run button pressed, the dashboard of a table of up to
    98 rows raises at the first call of [progress_bar.progress]: its
    argument [1 / len(result) * 100] is a float above [1.0].  Until then
    it has shown the title, the buttons, the progress bar at 0, the
    placeholder and the first status text; it has not slept and has
    appended no row to the chart. *)
Theorem X10_first_progress_update_raises (w : World) (rows : list Row)
    (table result0 : list State) :
  raw_result rows = Ok table →
  (length rows ≤ 98)%nat →
  run_simulation w = true →
  ∃ value tr,
    percent 1 (Z.of_nat (length rows) + 1) = Ok value ∧
    (value <=? 1)%float = false ∧
    dashboard w (Ok table) result0 = (tr, Raise StreamlitAPIException) ∧
    tr = [st_title "cadCAD Simulation with Streamlit";
          st_sidebar_button "Run Simulation"; st_sidebar_button "Re-run";
          st_progress 0; st_empty; status_text_text value] ∧
    sleeps tr = [] ∧
    rows_added tr = [].
Proof.
  intros Hres Hlen Hrun.
  rewrite raw_result_trajectory in Hres. injection Hres as <-.
  set (table := the_genesis
                :: trajectory (the_params rows) 1 0 the_genesis rows).
  assert (Hn : length table = S (length rows))
    by (simpl; by rewrite length_trajectory).
  destruct (dashboard_rejected w result0 table Hrun)
    as (value & Hv & Hgt & Hdash); [lia|].
  exists value, [st_title "cadCAD Simulation with Streamlit";
                 st_sidebar_button "Run Simulation";
                 st_sidebar_button "Re-run";
                 st_progress 0; st_empty; status_text_text value].
  rewrite Hn in Hv.
  replace (Z.of_nat (S (length rows))) with (Z.of_nat (length rows) + 1)
    in Hv by lia.
  by repeat split.
Qed.

Lemma X10_first_progress_update_raises_witness :
  ∃ value tr,
    percent 1 (Z.of_nat (length [row0; row1]) + 1) = Ok value ∧
    (value <=? 1)%float = false ∧
    dashboard (sample_world (Ok "{data}") [market0; market1] true false)
      (Ok (the_genesis
           :: trajectory (the_params [row0; row1]) 1 0 the_genesis
                [row0; row1])) []
    = (tr, Raise StreamlitAPIException) ∧
    tr = [st_title "cadCAD Simulation with Streamlit";
          st_sidebar_button "Run Simulation"; st_sidebar_button "Re-run";
          st_progress 0; st_empty; status_text_text value] ∧
    sleeps tr = [] ∧
    rows_added tr = [].
Proof.
  apply (X10_first_progress_update_raises
           (sample_world (Ok "{data}") [market0; market1] true false)
           [row0; row1]).
  - apply raw_result_trajectory.
  - simpl. lia.
  - reflexivity.
Defined.

Lemma reruns_bind {A B} (m : UI A) (f : A → UI B) :
  reruns m.1 = 0%nat →
  (∀ a, reruns (f a).1 = 0%nat) →
  reruns (m ≫= f).1 = 0%nat.
Proof.
  intros Hm Hf. destruct m as [tr [a|e]]; simpl in *; [|done].
  specialize (Hf a). destruct (f a) as [tr' r]. simpl in *.
  by rewrite reruns_app, Hm, Hf.
Qed.

Lemma reruns_for {A} (xs : list A) (body : A → UI ()) :
  (∀ x, reruns (body x).1 = 0%nat) →
  reruns (for_ xs body).1 = 0%nat.
Proof.
  intros Hbody. induction xs as [|x xs IH]; [done|].
  rewrite for_cons. by apply reruns_bind.
Qed.

Ltac no_rerun :=
  repeat first
    [ reflexivity
    | apply reruns_for; intros
    | apply reruns_bind; [|intros] ].

(** X12.  When the re-run button is not pressed, [st.experimental_rerun]
    is never called: not by the script, and not by the dashboard whatever
    the run button, the outcome of the simulation and the result table
    are. *)
Theorem X12_no_rerun_without_button (w : World)
    (execute : result (list State)) (result : list State) :
  re_run w = false →
  reruns (script w).1 = 0%nat ∧
  reruns (dashboard w execute result).1 = 0%nat.
Proof.
  intros Hre. split.
  - by destruct (script_displays_nothing w) as [-> _].
  - unfold dashboard, results_section, chart_section. rewrite Hre.
    destruct (run_simulation w); no_rerun.
Qed.

Lemma X12_no_rerun_without_button_witness :
  reruns (script (sample_world (Ok "{data}") [market0] true false)).1 = 0%nat ∧
  reruns (dashboard (sample_world (Ok "{data}") [market0] true false)
            (Ok [the_genesis; the_genesis]) []).1 = 0%nat.
Proof.
  apply (X12_no_rerun_without_button
           (sample_world (Ok "{data}") [market0] true false)).
  reflexivity.
Defined.

(** X13.  A response whose ['data'] has no ['markets'] key ends the
    script with [KeyError] before anything is displayed. *)
Theorem X13_missing_markets_is_KeyError (w : World) (r : string) (j : Json)
    (gd : gmap string (list Market.t)) :
  post w = Ok r →
  json_loads w r = Ok j →
  j !! "data" = Some gd →
  gd !! "markets" = None →
  markets w = Raise KeyError ∧
  script w = ([], Raise KeyError).
Proof.
  intros Hr Hj Hgd Hms.
  assert (Hm : markets w = Raise KeyError).
  { unfold markets, graph_data.
    rewrite Hr, bind_Ok, Hj, bind_Ok, (getitem_Some _ _ _ Hgd), bind_Ok.
    by rewrite (getitem_None _ _ Hms). }
  split; [exact Hm|].
  apply script_Raise. unfold df. by rewrite Hm.
Qed.

Lemma X13_missing_markets_is_KeyError_witness :
  markets {| post := Ok "{}";
             json_loads := λ _, Ok {[ "data" := ∅ ]};
             parse_float := sample_parse;
             run_simulation := true; re_run := false |}
  = Raise KeyError ∧
  script {| post := Ok "{}";
            json_loads := λ _, Ok {[ "data" := ∅ ]};
            parse_float := sample_parse;
            run_simulation := true; re_run := false |}
  = ([], Raise KeyError).
Proof.
  apply (X13_missing_markets_is_KeyError
           {| post := Ok "{}";
              json_loads := λ _, Ok {[ "data" := ∅ ]};
              parse_float := sample_parse;
              run_simulation := true; re_run := false |}
           "{}" {[ "data" := ∅ ]} ∅); reflexivity.
Defined.

(** X15.  The utilization is the integer [0] exactly when [totalSupply]
    is a zero of either sign: the guard also covers [-0.0], and in every
    other case the policy stores a float. *)
Theorem X15_integer_zero_iff_zero_supply (params : Params) (substep : Z)
    (sH : list (list State)) (s : State) (t : Z) (row : Row) :
  s !! "timestep" = Some (PyInt t) →
  new_df params !! t = Some row →
  ∃ policy_input : State,
    p_rates params substep sH s = Ok policy_input ∧
    (policy_input !! "utilization_rate" = Some (PyInt 0) ↔
     ∃ sign, Prim2SF (totalSupply row) = S754_zero sign) ∧
    ((∀ sign, Prim2SF (totalSupply row) ≠ S754_zero sign) →
     ∃ f, policy_input !! "utilization_rate" = Some (PyFloat f)).
Proof.
  intros Ht Hrow. exists (policy_of params row).
  split; [by apply (p_rates_row _ _ _ _ t)|].
  assert (Hu : policy_of params row !! "utilization_rate"
               = Some (utilization_of row)) by reflexivity.
  rewrite Hu. unfold utilization_of.
  destruct (totalSupply row =? 0)%float eqn:Hz.
  - destruct (eqb_zero_Prim2SF _ Hz) as [sign Hsign].
    split; [split; [by eauto|done]|].
    intros Hno. by destruct (Hno sign).
  - split; [|by eauto]. split; [done|].
    intros [sign Hsign]. by rewrite (Prim2SF_eqb_zero _ _ Hsign) in Hz.
Qed.

Lemma X15_integer_zero_iff_zero_supply_witness :
  ∃ policy_input : State,
    p_rates (the_params [row0; row1]) 1 [] (<["timestep" := PyInt 1]> ∅)
    = Ok policy_input ∧
    (policy_input !! "utilization_rate" = Some (PyInt 0) ↔
     ∃ sign, Prim2SF (totalSupply row1) = S754_zero sign) ∧
    ((∀ sign, Prim2SF (totalSupply row1) ≠ S754_zero sign) →
     ∃ f, policy_input !! "utilization_rate" = Some (PyFloat f)).
Proof.
  apply (X15_integer_zero_iff_zero_supply (the_params [row0; row1]) 1 []
           (<["timestep" := PyInt 1]> ∅) 1 row1); reflexivity.
Defined.
